(** * mass_set_signatures.py: bulk update of Yandex 360 mail signatures

    A shallow embedding of [src/mass_set_signatures.py] and the properties
    of its transport, identity check, signature merge and row loop.

    Modelling conventions.
    - Python [str] values are [string]s; [strip] and [lower] are given for
      the ASCII range (white space is 9-13, 28-32; letters are A-Z).
    - A signature entry is a Python dict used as a struct with the keys
      [text], [lang], [isDefault] and [emails] of the mail API; it is a
      record whose fields are optional ([None]: the key is absent).  Keys
      the program never reads or writes are carried along in [s_others].
      When present, [emails] is a list of strings.
    - The user card is a dict with an optional [email] and three optional
      alias collections whose elements are strings, dicts or anything else,
      as [user_owns_email] tells them apart with [isinstance].
    - The HTTP session, [time.sleep] and [print] are effects: a computation
      takes the state of the remote side and returns a result or a raised
      exception, the new state and the events it produced, in order.
    - Sleep durations are rationals; the two call sites of [time.sleep]
      (retry back-off and row pacing) produce two different events. *)

From Stdlib Require Import String Ascii ZArith QArith Qminmax Qpower Lqa List Lia.
From stdpp Require Import base option list strings.
Import ListNotations.

Open Scope string_scope.
Open Scope list_scope.

(** ** Python strings *)

Definition is_space (c : ascii) : bool :=
  let n := nat_of_ascii c in
  ((9 <=? n)%nat && (n <=? 13)%nat) || ((28 <=? n)%nat && (n <=? 32)%nat).

Definition lower_char (c : ascii) : ascii :=
  let n := nat_of_ascii c in
  if (65 <=? n)%nat && (n <=? 90)%nat then ascii_of_nat (n + 32) else c.

(** [str.lower()] *)
Fixpoint lower (s : string) : string :=
  match s with
  | EmptyString => EmptyString
  | String c t => String (lower_char c) (lower t)
  end.

Fixpoint lstrip (s : string) : string :=
  match s with
  | EmptyString => EmptyString
  | String c t => if is_space c then lstrip t else s
  end.

Fixpoint rstrip (s : string) : string :=
  match s with
  | EmptyString => EmptyString
  | String c t =>
      match rstrip t with
      | EmptyString => if is_space c then EmptyString else String c EmptyString
      | t' => String c t'
      end
  end.

(** [str.strip()] *)
Definition strip (s : string) : string := rstrip (lstrip s).

(** Truth value of a [str]: the empty string is false. *)
Definition nonempty (s : string) : bool :=
  match s with EmptyString => false | String _ _ => true end.

(** Truth value of an [Optional[str]]: [None] and the empty string are false. *)
Definition truthy (o : option string) : bool :=
  match o with Some s => nonempty s | None => false end.

(** [o or d] for an optional string [o]. *)
Definition or_str (o : option string) (d : string) : string :=
  match o with
  | Some s => if nonempty s then s else d
  | None => d
  end.

(** [s.replace(old, new)] for a non-empty [old]: occurrences are replaced
    from left to right and do not overlap; [skip] counts the characters of
    a replaced occurrence still to be dropped. *)
Fixpoint replace_from (old new : string) (skip : nat) (s : string) : string :=
  match s with
  | EmptyString => EmptyString
  | String c t =>
      match skip with
      | S k => replace_from old new k t
      | O =>
          if String.prefix old s
          then (new ++ replace_from old new (String.length old - 1) t)%string
          else String c (replace_from old new 0 t)
      end
  end.

Definition replace (old new s : string) : string := replace_from old new 0 s.

(** [sorted(l)] on a list of strings: ascending in the order of [str],
    which compares character codes from the left. *)
Fixpoint insert_sorted (x : string) (l : list string) : list string :=
  match l with
  | [] => [x]
  | y :: t => if String.leb x y then x :: l else y :: insert_sorted x t
  end.

Fixpoint sorted (l : list string) : list string :=
  match l with
  | [] => []
  | x :: t => insert_sorted x (sorted t)
  end.

(** ** Signature entries *)

Record Sign := mkSign {
  s_text : option string;
  s_lang : option string;
  s_isDefault : option bool;
  s_emails : option (list string);
  s_others : list (string * string)
}.

(** [s["isDefault"] = b] *)
Definition set_isDefault (b : bool) (s : Sign) : Sign :=
  mkSign (s_text s) (s_lang s) (Some b) (s_emails s) (s_others s).

(** [s.update(e)]: every key of [e] overwrites the same key of [s], the
    other keys of [s] stay. *)
Definition update (e s : Sign) : Sign :=
  mkSign (if s_text e is Some _ then s_text e else s_text s)
         (if s_lang e is Some _ then s_lang e else s_lang s)
         (if s_isDefault e is Some _ then s_isDefault e else s_isDefault s)
         (if s_emails e is Some _ then s_emails e else s_emails s)
         (s_others s).

(** [s.get("lang") == lang] *)
Definition lang_is (lang : string) (s : Sign) : bool :=
  bool_decide (s_lang s = Some lang).

(** [sorted(s.get("emails", []))] *)
Definition cur_emails (s : Sign) : list string :=
  sorted (default [] (s_emails s)).

(** [sorted([email]) if email else []] *)
Definition want_emails (email : option string) : list string :=
  match email with
  | Some e => if nonempty e then sorted [e] else []
  | None => []
  end.

(** The test of the search loop of [upsert_sign] (lines 153-157): same
    language and same sorted list of bound addresses. *)
Definition same_key (lang : string) (email : option string) (s : Sign) : bool :=
  lang_is lang s && bool_decide (cur_emails s = want_emails email).

(** Lines 145-148: clear [isDefault] on the entries of language [lang]. *)
Definition clear_default (lang : string) (s : Sign) : Sign :=
  if lang_is lang s then set_isDefault false s else s.

(** Lines 145-148 as a whole. *)
Definition clear_defaults (make_default : bool) (lang : string)
    (signs : list Sign) : list Sign :=
  if make_default then clear_default lang <$> signs else signs.

(** Lines 151-159: index of the first entry with the wanted key, counting
    from [i]; the loop stops at the first hit. *)
Fixpoint find_target (lang : string) (email : option string)
    (signs : list Sign) (i : nat) : option nat :=
  match signs with
  | [] => None
  | s :: rest =>
      if same_key lang email s then Some i
      else find_target lang email rest (S i)
  end.

(** The key [emails] of a fresh entry, set under [if email:] (lines 162-163
    and 253-254): [[email]], or no key. *)
Definition bound_emails (email : option string) : option (list string) :=
  match email with
  | Some e => if nonempty e then Some [e] else None
  | None => None
  end.

(** Lines 161-163. *)
Definition new_entry (lang : string) (email : option string) (text : string)
    (make_default : bool) : Sign :=
  mkSign (Some text) (Some lang) (Some make_default)
         (bound_emails email) [].

(** [upsert_sign(signs, lang, email, text, make_default)], lines 143-170.
    The list is changed in place and returned; the value here is the list
    after the call. *)
Definition upsert_sign (signs : list Sign) (lang : string) (email : option string)
    (text : string) (make_default : bool) : list Sign :=
  let signs := clear_defaults make_default lang signs in
  match find_target lang email signs 0 with
  | None => signs ++ [new_entry lang email text make_default]
  | Some target_idx =>
      alter (update (new_entry lang email text make_default)) target_idx signs
  end.

(** Number of entries of a list that carry the key [(lang, email)]. *)
Definition count_key (lang : string) (email : option string) (signs : list Sign) : nat :=
  length (List.filter (same_key lang email) signs).

(** ** The user card and [user_owns_email] *)

(** An element of an alias collection: a string, a dict (of which only the
    key [address] is read; [None] when it is absent or null) or a value of
    another type. *)
Inductive Alias :=
  | AliasStr (a : string)
  | AliasDict (address : option string)
  | AliasOther.

(** The keys of the user card the program reads.  An alias collection is
    [None] when the key is absent or its value is not a list. *)
Record User := mkUser {
  u_email : option string;
  u_aliases : option (list Alias);
  u_emails : option (list Alias);
  u_alternateEmails : option (list Alias)
}.

(** [user.get(key)], kept when it is a list. *)
Definition user_get_list (user : User) (key : string) : option (list Alias) :=
  if String.eqb key "aliases" then u_aliases user
  else if String.eqb key "emails" then u_emails user
  else if String.eqb key "alternateEmails" then u_alternateEmails user
  else None.

(** Lines 114-120: does the element [e] of a collection equal [needle]? *)
Definition alias_is (needle : string) (e : Alias) : bool :=
  match e with
  | AliasStr a => String.eqb (lower (strip a)) needle
  | AliasDict address => String.eqb (lower (strip (or_str address ""))) needle
  | AliasOther => false
  end.

(** [user_owns_email(user, email)], lines 93-122. *)
Definition user_owns_email (user : User) (email : string) : bool :=
  if negb (nonempty email) then false
  else
    let needle := lower (strip email) in
    let primary := lower (strip (or_str (u_email user) "")) in
    if nonempty primary && String.eqb primary needle then true
    else
      existsb (fun key =>
                 match user_get_list user key with
                 | Some maybe => existsb (alias_is needle) maybe
                 | None => false
                 end)
              ["aliases"; "emails"; "alternateEmails"].

(** ** Requests, responses and events *)

(** The body posted to [sender_info]. *)
Record Body := mkBody {
  signs : list Sign;
  signPosition : string
}.

(** The settings document read from [sender_info]. *)
Record SenderInfo := mkSenderInfo {
  si_signs : option (list Sign);
  si_signPosition : option string
}.

(** What [r.json()] yields. *)
Inductive Document :=
  | DocUser (user : User)
  | DocSenderInfo (current : SenderInfo).

Record Request := mkRequest {
  method : string;
  url : string;
  data : option Body
}.

(** [json] is [None] when the body of the response is not a JSON document. *)
Record Response := mkResponse {
  status_code : Z;
  text : string;
  json : option Document
}.

(** [session.request] returns a response or raises (no connection, time-out). *)
Inductive Reply :=
  | Returns (resp : Response)
  | Fails.

Inductive Exn :=
  | HTTPError (status : Z)      (* [raise_for_status] *)
  | RequestFailed               (* raised by [session.request] *)
  | JSONDecodeError             (* [r.json()] on a body of another shape *)
  | UnboundLocalError.          (* [resp] read before assignment *)

Inductive Result (A : Type) :=
  | Ok (a : A)
  | Raise (e : Exn).
Arguments Ok {A} a.
Arguments Raise {A} e.

(** The lines the row loop prints. *)
Inductive Line :=
  | SKIP (idx : nat)
  | FAIL_user_not_found (user_id : string) (proceed : bool)
  | FAIL_not_owner (user_id csv_email : string)
  | WARN_not_owner (user_id csv_email : string)
  | FAIL_get (user_id : string) (e : Exn)
  | DRY (user_id : string) (body : Body)
  | OK (user_id : string)
  | FAIL_post (user_id : string) (status : Z) (body_text : string).

Inductive Event :=
  | Sent (req : Request)        (* a call of [session.request] *)
  | Backoff (wait : Q)          (* [time.sleep(wait)] in [backoff_request] *)
  | Pace (interval : Q)         (* [time.sleep(interval)] in [main] *)
  | Printed (line : Line).

(** Command line arguments read by the row loop. *)
Record Args := mkArgs {
  org_id : string;
  position : string;
  default_lang : string;
  merge : bool;
  convert_newlines : bool;
  rps : Q;
  dry_run : bool;
  strict_email : bool
}.

(** A row of the CSV file after line 199: the three required columns hold
    strings, the column [lang] may be missing. *)
Record Row := mkRow {
  row_userId : string;
  row_email : string;
  row_signature : string;
  row_lang : option string
}.

Definition BASE : string := "https://api360.yandex.net".

(** [normalize_signature(text, convert_newlines)], lines 138-141. *)
Definition normalize_signature (text : string) (convert_newlines : bool) : string :=
  if convert_newlines
  then replace (String "010" "") "<br>" (replace "\n" "<br>" text)
  else text.

(** Line 66. *)
Definition retriable (status : Z) : bool :=
  existsb (Z.eqb status) [429; 500; 502; 503; 504]%Z.

(** Line 71: [min(30.0, 0.5 * (2 ** (attempt - 1)))]. *)
Definition backoff_wait (attempt : Z) : Q :=
  Qmin 30 ((1 # 2) * 2 ^ (attempt - 1)).

(** Line 185: [1.0 / max(args.rps, 0.1)]. *)
Definition interval (args : Args) : Q :=
  1 / Qmax (rps args) (1 # 10).

(** ** Effects *)

Declare Scope py_scope.
Delimit Scope py_scope with py.

Section Program.

(** The remote side: its state and how it answers a request. *)
Variable Remote : Type.
Variable session : Remote -> Request -> Reply * Remote.

(** A computation: result or raised exception, new state of the remote
    side, events in the order they happened. *)
Definition M (A : Type) : Type := Remote -> Result A * Remote * list Event.

Definition ret {A} (a : A) : M A := fun w => (Ok a, w, []).

Definition raise {A} (e : Exn) : M A := fun w => (Raise e, w, []).

Definition bind {A B} (m : M A) (k : A -> M B) : M B :=
  fun w =>
    match m w with
    | (Ok a, w1, ev1) =>
        match k a w1 with
        | (r, w2, ev2) => (r, w2, ev1 ++ ev2)
        end
    | (Raise e, w1, ev1) => (Raise e, w1, ev1)
    end.

Notation "x <- m ;; k" := (bind m (fun x => k))
  (at level 100, m at next level, right associativity) : py_scope.
Notation "m ;; k" := (bind m (fun _ => k))
  (at level 100, right associativity) : py_scope.
Local Open Scope py_scope.

Definition emit (e : Event) : M unit := fun w => (Ok tt, w, [e]).

(** [try: m  except requests.HTTPError as e: handler(e)] *)
Definition try_except_HTTPError {A} (m : M A) (handler : Exn -> M A) : M A :=
  fun w =>
    match m w with
    | (Raise (HTTPError status), w1, ev1) =>
        match handler (HTTPError status) w1 with
        | (r, w2, ev2) => (r, w2, ev1 ++ ev2)
        end
    | other => other
    end.

(** [session.request(method, url, data=...)] *)
Definition request (method url : string) (data : option Body) : M Response :=
  fun w =>
    let req := mkRequest method url data in
    match session w req with
    | (Returns resp, w1) => (Ok resp, w1, [Sent req])
    | (Fails, w1) => (Raise RequestFailed, w1, [Sent req])
    end.

(** [r.raise_for_status()] *)
Definition raise_for_status (r : Response) : M unit :=
  if (400 <=? status_code r)%Z && (status_code r <? 600)%Z
  then raise (HTTPError (status_code r))
  else ret tt.

(** ** Transport *)

(** The loop of [backoff_request] (lines 68-76) over the attempt numbers
    still to come; [last] is the variable of the same name. *)
Fixpoint backoff_loop (attempts : list Z) (last : option Response)
    (method url : string) (data : option Body) : M Response :=
  match attempts with
  | [] =>
      match last with
      | Some r => ret r
      | None => raise UnboundLocalError
      end
  | attempt :: rest =>
      resp <- request method url data ;;
      if retriable (status_code resp) then
        emit (Backoff (backoff_wait attempt)) ;;
        backoff_loop rest (Some resp) method url data
      else ret resp
  end.

(** [backoff_request(session, method, url, **kwargs)], lines 65-76;
    [range(1, 7)] is the list of attempt numbers. *)
Definition backoff_request (method url : string) (data : option Body) : M Response :=
  backoff_loop [1; 2; 3; 4; 5; 6]%Z None method url data.

(** ** API calls *)

Definition user_url (org_id user_id : string) : string :=
  (BASE ++ "/directory/v1/org/" ++ org_id ++ "/users/" ++ user_id)%string.

Definition sender_info_url (org_id user_id : string) : string :=
  (BASE ++ "/admin/v1/org/" ++ org_id ++ "/mail/users/" ++ user_id
        ++ "/settings/sender_info")%string.

(** [get_user(session, org_id, user_id)], lines 80-91. *)
Definition get_user (org_id user_id : string) : M (option User) :=
  r <- backoff_request "GET" (user_url org_id user_id) None ;;
  if (status_code r =? 404)%Z then ret None
  else
    raise_for_status r ;;
    match json r with
    | Some (DocUser user) => ret (Some user)
    | _ => raise JSONDecodeError
    end.

(** [get_sender_info(session, org_id, user_id)], lines 124-130. *)
Definition get_sender_info (org_id user_id : string) : M SenderInfo :=
  r <- backoff_request "GET" (sender_info_url org_id user_id) None ;;
  if (status_code r =? 404)%Z then ret (mkSenderInfo (Some []) (Some "bottom"))
  else
    raise_for_status r ;;
    match json r with
    | Some (DocSenderInfo current) => ret current
    | _ => raise JSONDecodeError
    end.

(** [post_sender_info(session, org_id, user_id, body)], lines 132-134. *)
Definition post_sender_info (org_id user_id : string) (body : Body) : M Response :=
  backoff_request "POST" (sender_info_url org_id user_id) (Some body).

(** ** The row loop of [main] *)

(** Lines 213-234.  [None]: the row is given up ([continue]); [Some e]:
    the row goes on with [email_to_bind = e]. *)
Definition check_email (args : Args) (user_id csv_email : string)
    : M (option (option string)) :=
  if nonempty csv_email then
    user <- get_user (org_id args) user_id ;;
    match user with
    | None =>
        if strict_email args then
          emit (Printed (FAIL_user_not_found user_id false)) ;;
          emit (Pace (interval args)) ;;
          ret None
        else
          emit (Printed (FAIL_user_not_found user_id true)) ;;
          ret (Some None)
    | Some user =>
        if user_owns_email user csv_email then ret (Some (Some csv_email))
        else if strict_email args then
          emit (Printed (FAIL_not_owner user_id csv_email)) ;;
          emit (Pace (interval args)) ;;
          ret None
        else
          emit (Printed (WARN_not_owner user_id csv_email)) ;;
          ret (Some None)
    end
  else ret (Some None).

(** Lines 238-255.  [None]: the row is given up ([continue]). *)
Definition build_body (args : Args) (user_id lang : string)
    (email_to_bind : option string) (text_norm : string) : M (option Body) :=
  if merge args then
    fetched <- try_except_HTTPError
                 (current <- get_sender_info (org_id args) user_id ;;
                  ret (Some current))
                 (fun e =>
                    emit (Printed (FAIL_get user_id e)) ;;
                    emit (Pace (interval args)) ;;
                    ret None) ;;
    match fetched with
    | None => ret None
    | Some current =>
        let signs := default [] (si_signs current) in
        let signs := upsert_sign signs lang email_to_bind text_norm true in
        ret (Some (mkBody signs (or_str (si_signPosition current) (position args))))
    end
  else
    let one := mkSign (Some text_norm) (Some lang) (Some true)
                      (bound_emails email_to_bind) [] in
    ret (Some (mkBody [one] (position args))).

(** Lines 257-264. *)
Definition submit (args : Args) (user_id : string) (body : Body) : M unit :=
  if dry_run args then emit (Printed (DRY user_id body))
  else
    resp <- post_sender_info (org_id args) user_id body ;;
    if (status_code resp =? 200)%Z then emit (Printed (OK user_id))
    else emit (Printed (FAIL_post user_id (status_code resp) (text resp))).

(** The body of the loop of [main], lines 203-266, for row number [idx]. *)
Definition process_row (args : Args) (idx : nat) (row : Row) : M unit :=
  let user_id := strip (row_userId row) in
  let csv_email := strip (row_email row) in
  let text := strip (row_signature row) in
  let lang := lower (strip (or_str (row_lang row) (default_lang args))) in
  let lang := if nonempty lang then lang else default_lang args in
  if negb (nonempty user_id) || negb (nonempty text) then
    emit (Printed (SKIP idx))
  else
    checked <- check_email args user_id csv_email ;;
    match checked with
    | None => ret tt
    | Some email_to_bind =>
        let text_norm := normalize_signature text (convert_newlines args) in
        built <- build_body args user_id lang email_to_bind text_norm ;;
        match built with
        | None => ret tt
        | Some body =>
            submit args user_id body ;;
            emit (Pace (interval args))
        end
    end.

(** [for idx, row in enumerate(rows, start=1)], line 202, from [idx] on. *)
Fixpoint main_loop (args : Args) (idx : nat) (rows : list Row) : M unit :=
  match rows with
  | [] => ret tt
  | row :: rest =>
      process_row args idx row ;;
      main_loop args (S idx) rest
  end.

End Program.

Arguments ret {Remote A} a.
Arguments raise {Remote A} e.
Arguments bind {Remote A B} m k.
Arguments emit {Remote} e.
Arguments try_except_HTTPError {Remote A} m handler.
Arguments request {Remote} session method url data.
Arguments raise_for_status {Remote} r.
Arguments backoff_loop {Remote} session attempts last method url data.
Arguments backoff_request {Remote} session method url data.
Arguments get_user {Remote} session org_id user_id.
Arguments get_sender_info {Remote} session org_id user_id.
Arguments post_sender_info {Remote} session org_id user_id body.
Arguments check_email {Remote} session args user_id csv_email.
Arguments build_body {Remote} session args user_id lang email_to_bind text_norm.
Arguments submit {Remote} session args user_id body.
Arguments process_row {Remote} session args idx row.
Arguments main_loop {Remote} session args idx rows.

(** The parts of an outcome. *)
Definition result_of {A W} (o : Result A * W * list Event) : Result A := o.1.1.
Definition events_of {A W} (o : Result A * W * list Event) : list Event := o.2.

(** The bodies posted, the back-off waits and the pacing sleeps of a run. *)
Definition posted (ev : list Event) : list Body :=
  omap (fun e => match e with
                 | Sent (mkRequest "POST" _ (Some body)) => Some body
                 | _ => None
                 end) ev.

Definition backoffs (ev : list Event) : list Q :=
  omap (fun e => match e with Backoff wait => Some wait | _ => None end) ev.

Definition paces (ev : list Event) : list Q :=
  omap (fun e => match e with Pace i => Some i | _ => None end) ev.

Definition requests (ev : list Event) : list Request :=
  omap (fun e => match e with Sent req => Some req | _ => None end) ev.

(** ** The start of [main] *)

(** How the checks of [main] at lines 179-195 end: with one of the four
    [sys.exit] calls, or with none of them, in which case [main] goes on
    to read the data rows (lines 197-200, not part of this model). *)
Inductive Startup :=
  | ExitNoOrgId
  | ExitNoToken
  | ExitNoHeader
  | ExitMissingColumns (missing : list string)
  | ChecksPassed.

Definition required_columns : list string := ["userId"; "email"; "signature"].

(** Lines 192-193: [{"userId", "email", "signature"} - set(headers)] with
    [headers] the trimmed field names.  The difference is a set; it is
    listed here in the order of the required columns. *)
Definition missing_columns (fieldnames : list string) : list string :=
  let headers := strip <$> fieldnames in
  List.filter (fun c => negb (existsb (String.eqb c) headers)) required_columns.

(** The checks of lines 179-195 and nothing after them; [fieldnames] is
    [reader.fieldnames] ([None] for a file without a header line). *)
Definition startup (org_id token : option string)
    (fieldnames : option (list string)) : Startup :=
  if negb (truthy org_id) then ExitNoOrgId
  else if negb (truthy token) then ExitNoToken
  else
    match fieldnames with
    | None | Some [] => ExitNoHeader
    | Some fieldnames =>
        match missing_columns fieldnames with
        | [] => ChecksPassed
        | missing => ExitMissingColumns missing
        end
    end.

(** ** Vocabulary of the statements *)

(** Two addresses are the same up to case and surrounding white space. *)
Definition same_address (a b : string) : Prop :=
  lower (strip a) = lower (strip b).

(** The string lines 114-120 compare an element of an alias collection
    with the needle: the element itself when it is a string,
    [e.get("address") or ""] when it is a dict; elements of other types
    are not compared. *)
Definition alias_value (e : Alias) : option string :=
  match e with
  | AliasStr a => Some a
  | AliasDict address => Some (or_str address "")
  | AliasOther => None
  end.

(** The address an element of an alias collection stands for: the string
    itself, or the [address] of a dict; a dict without [address] stands
    for no address, and neither does an element of another type. *)
Definition alias_address (e : Alias) : option string :=
  match e with
  | AliasStr a => Some a
  | AliasDict (Some a) => Some a
  | AliasDict None => None
  | AliasOther => None
  end.

(** [e] is an element of one of the alias collections of [user]. *)
Definition is_alias (user : User) (e : Alias) : Prop :=
  exists key maybe,
    In key ["aliases"; "emails"; "alternateEmails"]
    /\ user_get_list user key = Some maybe /\ In e maybe.

(** The replies of the remote side to the same request sent [n] times in
    a row from state [w], and its state afterwards. *)
Fixpoint replay {Remote} (session : Remote -> Request -> Reply * Remote)
    (w : Remote) (req : Request) (n : nat) : list Reply * Remote :=
  match n with
  | O => ([], w)
  | S n' =>
      match session w req with
      | (rep, w1) =>
          match replay session w1 req n' with
          | (reps, w2) => (rep :: reps, w2)
          end
      end
  end.

(** A reply that makes the transport try again. *)
Definition calls_for_retry (rep : Reply) : bool :=
  match rep with
  | Returns resp => retriable (status_code resp)
  | Fails => false
  end.

(** The events of sending [req] once per reply, each reply that calls for
    a retry being followed by the wait of its attempt number. *)
Fixpoint transcript (req : Request) (attempts : list Z) (reps : list Reply)
    {struct reps} : list Event :=
  match reps, attempts with
  | rep :: reps', attempt :: attempts' =>
      Sent req
      :: (if calls_for_retry rep then [Backoff (backoff_wait attempt)] else [])
      ++ transcript req attempts' reps'
  | _, _ => []
  end.

(** The lines that close a row: its outcome.  The two notes printed when
    the address is dropped and the row goes on are not outcomes. *)
Definition is_outcome (line : Line) : bool :=
  match line with
  | FAIL_user_not_found _ proceed => negb proceed
  | WARN_not_owner _ _ => false
  | _ => true
  end.

Definition outcomes (ev : list Event) : list Line :=
  omap (fun e => match e with
                 | Printed line => if is_outcome line then Some line else None
                 | _ => None
                 end) ev.

(** Events of the transport alone: requests and back-off waits. *)
Definition transport_event (e : Event) : Prop :=
  match e with
  | Sent _ | Backoff _ => True
  | _ => False
  end.

(** Events with no pacing sleep, no outcome line and no posted body. *)
Definition quiet (ev : list Event) : Prop :=
  paces ev = [] /\ outcomes ev = [] /\ posted ev = [].

(** Events of a row given up on the way: quiet events, then an outcome
    line and the pacing sleep. *)
Definition closes_row (args : Args) (ev : list Event) : Prop :=
  exists ev0 line,
    ev = ev0 ++ [Printed line; Pace (interval args)]
    /\ is_outcome line = true /\ quiet ev0.




(** An entry of language [lang] that is marked as the default. *)
Definition is_default_of (lang : string) (s : Sign) : bool :=
  lang_is lang s && bool_decide (s_isDefault s = Some true).

(** Number of entries of language [lang] marked as the default. *)
Definition default_count (lang : string) (signs : list Sign) : nat :=
  length (List.filter (is_default_of lang) signs).

(** [pat in s] for strings: [pat] occurs in [s] as a substring. *)
Fixpoint occurs (pat s : string) : bool :=
  String.prefix pat s
  || match s with
     | EmptyString => false
     | String _ t => occurs pat t
     end.

(** The two spellings of a line break that [normalize_signature] converts:
    the line feed character and the two characters backslash, [n]. *)
Definition line_feed : string := String "010" "".
Definition backslash_n : string := "\n".

(** Sum of a list of durations. *)
Definition total (l : list Q) : Q := fold_right Qplus 0%Q l.

(** The body a posted request carries, if it is a POST with one. *)
Definition posted_body (req : Request) : option Body :=
  match req with
  | mkRequest "POST" _ (Some body) => Some body
  | _ => None
  end.

(** The three requests a row can send for the user [user_id]: the lookup of
    the user card, the fetch of the settings, and the post of [body]. *)
Definition lookup_request (args : Args) (user_id : string) : Request :=
  mkRequest "GET" (user_url (org_id args) user_id) None.

Definition fetch_request (args : Args) (user_id : string) : Request :=
  mkRequest "GET" (sender_info_url (org_id args) user_id) None.

Definition post_request (args : Args) (user_id : string) (body : Body) : Request :=
  mkRequest "POST" (sender_info_url (org_id args) user_id) (Some body).

(** Line 206: the language of a row. *)
Definition lang_of (args : Args) (row : Row) : string :=
  let lang := lower (strip (or_str (row_lang row) (default_lang args))) in
  if nonempty lang then lang else default_lang args.

(** Lines 205 and 236: the text of a row. *)
Definition text_of (args : Args) (row : Row) : string :=
  normalize_signature (strip (row_signature row)) (convert_newlines args).

(** Lines 252-255: the body of replace mode. *)
Definition replace_body (args : Args) (row : Row) (email_to_bind : option string)
    : Body :=
  mkBody [mkSign (Some (text_of args row)) (Some (lang_of args row)) (Some true)
                 (bound_emails email_to_bind) []]
         (position args).

(** ** Sample data *)

Definition sign_en_A : Sign := mkSign (Some "A") (Some "en") (Some false) None [].
Definition sign_en_B : Sign := mkSign (Some "B") (Some "en") (Some true) None [].
Definition sign_ru : Sign := mkSign (Some "Privet") (Some "ru") (Some true) None [].
Definition sign_en_bound : Sign :=
  mkSign (Some "Old") (Some "en") (Some true) (Some ["b@x.com"]) [].
Definition sign_en_empty : Sign :=
  mkSign (Some "E") (Some "en") (Some true) (Some []) [("color", "red")].

(** Two entries of language [en], neither bound to an address. *)
Definition two_unbound_en : list Sign := [sign_en_A; sign_en_B].

Definition three_signs : list Sign := [sign_ru; sign_en_B; sign_en_bound].

Definition user_ann : User :=
  mkUser (Some "Ann@X.com")
         (Some [AliasOther; AliasStr " Sales@x.COM "])
         None
         (Some [AliasDict None; AliasDict (Some "a.smith@X.com")]).

(** The card [{"aliases": [{}]}]: no primary address, and one alias, a
    dict without [address]. *)
Definition user_blank_alias : User :=
  mkUser None (Some [AliasDict None]) None None.

(** A remote side that counts the requests it has seen and answers the
    [k]-th (from 0) with status [statuses !! k], or 200 past the end. *)
Definition scripted (statuses : list Z) (doc : option Document)
    (k : nat) (req : Request) : Reply * nat :=
  (Returns (mkResponse (default 200%Z (statuses !! k)) "" doc), S k).

Definition args_replace : Args := mkArgs "org" "bottom" "ru" false false 4 false false.
Definition args_dry : Args := mkArgs "org" "bottom" "ru" false false 4 true false.
Definition args_merge : Args := mkArgs "org" "bottom" "ru" true false 4 false false.
Definition args_merge_under : Args := mkArgs "org" "under" "ru" true false 4 false false.

Definition row_en : Row := mkRow "u1" "a@x.com" "Hi" (Some "en").
Definition row_plain : Row := mkRow "u2" "" "Bye" None.
Definition row_no_signature : Row := mkRow "u3" "c@x.com" "  " None.

Definition user_a : User := mkUser (Some "a@x.com") None None None.

(** The body of scenario A. *)
Definition body_scenario_A : Body :=
  mkBody [mkSign (Some "Hi") (Some "en") (Some true) (Some ["a@x.com"]) []] "bottom".

(** Settings found on the remote side: one entry, position [under]. *)
Definition settings_under : SenderInfo :=
  mkSenderInfo (Some [sign_en_bound]) (Some "under").


(** A remote side that knows no user and no settings (404 to every GET)
    and rejects every POST with 500. *)
Definition refusing (w : unit) (req : Request) : Reply * unit :=
  (Returns (mkResponse (if String.eqb (method req) "GET" then 404 else 500)%Z "no" None),
   w).

(** * Properties *)

(** ** Worked examples *)

Example upsert_ex1 :
  upsert_sign [mkSign (Some "A") (Some "en") (Some true) (Some ["b@x.com"]) []]
              "en" (Some "a@x.com") "Hi" true
  = [mkSign (Some "A") (Some "en") (Some false) (Some ["b@x.com"]) [];
     mkSign (Some "Hi") (Some "en") (Some true) (Some ["a@x.com"]) []].
Proof. vm_compute. reflexivity. Qed.

Example strip_ex : (strip "  A@x.Com  ", lower (strip " A@x.Com "), strip "   ", replace "\n" "<br>" "a\n\nb") = ("A@x.Com", "a@x.com", "", "a<br><br>b").
Proof. vm_compute. reflexivity. Qed.

(** ** Sorting and keys *)

Lemma insert_sorted_length x l : length (insert_sorted x l) = S (length l).
Proof.
  induction l as [|y t IH]; simpl; [reflexivity|].
  destruct (String.leb x y); simpl; congruence.
Qed.

Lemma sorted_length l : length (sorted l) = length l.
Proof.
  induction l as [|x t IH]; simpl; [reflexivity|].
  rewrite insert_sorted_length. congruence.
Qed.

Lemma sorted_nil_inv l : sorted l = [] -> l = [].
Proof.
  intros H. apply (f_equal length) in H. rewrite sorted_length in H.
  destruct l; [reflexivity | discriminate].
Qed.

Lemma same_key_set_isDefault lang email b s :
  same_key lang email (set_isDefault b s) = same_key lang email s.
Proof. reflexivity. Qed.

Lemma same_key_clear_default lang email lang' s :
  same_key lang email (clear_default lang' s) = same_key lang email s.
Proof. unfold clear_default. destruct (lang_is lang' s); reflexivity. Qed.

Lemma lang_is_true lang s : lang_is lang s = true <-> s_lang s = Some lang.
Proof. unfold lang_is. apply bool_decide_eq_true. Qed.

Lemma same_key_true lang email s :
  same_key lang email s = true <->
  s_lang s = Some lang /\ cur_emails s = want_emails email.
Proof.
  unfold same_key. rewrite andb_true_iff, lang_is_true, bool_decide_eq_true.
  reflexivity.
Qed.

Lemma cur_emails_new_entry lang email text md :
  cur_emails (new_entry lang email text md) = want_emails email.
Proof.
  unfold cur_emails, want_emails, new_entry, bound_emails; simpl.
  destruct email as [e|]; [|reflexivity].
  destruct (nonempty e); reflexivity.
Qed.

Lemma same_key_new_entry lang email text md :
  same_key lang email (new_entry lang email text md) = true.
Proof.
  apply same_key_true. split; [reflexivity | apply cur_emails_new_entry].
Qed.

Lemma same_key_update lang email text md s :
  same_key lang email s = true ->
  same_key lang email (update (new_entry lang email text md) s) = true.
Proof.
  rewrite !same_key_true. intros [Hl He]. split; [reflexivity|].
  unfold cur_emails, want_emails, update, new_entry, bound_emails in *; simpl.
  destruct email as [e|]; simpl; [|exact He].
  destruct (nonempty e); simpl; [reflexivity | exact He].
Qed.

Lemma clear_default_idem lang s :
  clear_default lang (clear_default lang s) = clear_default lang s.
Proof.
  unfold clear_default. destruct (lang_is lang s) eqn:H; [|rewrite H; reflexivity].
  unfold lang_is in *. simpl. rewrite H. reflexivity.
Qed.

Lemma update_clear_update lang email text md s :
  update (new_entry lang email text md)
         (clear_default lang (update (new_entry lang email text md) s))
  = update (new_entry lang email text md) s.
Proof.
  unfold clear_default, lang_is. simpl.
  rewrite bool_decide_eq_true_2 by reflexivity.
  unfold update, new_entry, bound_emails; simpl.
  destruct email as [e|]; [destruct (nonempty e)|]; reflexivity.
Qed.

Lemma update_update lang email text md s :
  update (new_entry lang email text md) (update (new_entry lang email text md) s)
  = update (new_entry lang email text md) s.
Proof.
  unfold update, new_entry, bound_emails; simpl.
  destruct email as [e|]; [destruct (nonempty e)|]; reflexivity.
Qed.

Lemma update_clear_default lang email text md s :
  update (new_entry lang email text md) (clear_default lang s)
  = update (new_entry lang email text md) s.
Proof. unfold clear_default. destruct (lang_is lang s); reflexivity. Qed.

Lemma update_new_entry lang email text md md' :
  update (new_entry lang email text md) (new_entry lang email text md')
  = new_entry lang email text md.
Proof.
  unfold update, new_entry, bound_emails; simpl.
  destruct email as [e|]; [destruct (nonempty e)|]; reflexivity.
Qed.

(** ** The search loop *)

Lemma find_target_Some lang email signs i j :
  find_target lang email signs i = Some j ->
  exists k s, j = i + k /\ signs !! k = Some s /\ same_key lang email s = true /\
    forall k' s', k' < k -> signs !! k' = Some s' -> same_key lang email s' = false.
Proof.
  revert i. induction signs as [|s0 rest IH]; intros i H; simpl in H; [discriminate|].
  destruct (same_key lang email s0) eqn:Hk.
  - injection H as <-. exists 0, s0. repeat split; [lia | assumption | intros; lia].
  - destruct (IH _ H) as (k & s & -> & Hs & Hks & Hbefore).
    exists (S k), s. repeat split; [lia | assumption | assumption |].
    intros [|k'] s' Hlt Hs'; simpl in Hs'; [congruence|].
    apply (Hbefore k'); [lia | assumption].
Qed.

Lemma find_target_None lang email signs i :
  find_target lang email signs i = None ->
  forall k s, signs !! k = Some s -> same_key lang email s = false.
Proof.
  revert i. induction signs as [|s0 rest IH]; intros i H k s Hs; [discriminate|].
  simpl in H. destruct (same_key lang email s0) eqn:Hk; [discriminate|].
  destruct k as [|k]; simpl in Hs; [congruence | eauto].
Qed.

Lemma find_target_first lang email signs i k s :
  signs !! k = Some s -> same_key lang email s = true ->
  (forall k' s', k' < k -> signs !! k' = Some s' -> same_key lang email s' = false) ->
  find_target lang email signs i = Some (i + k).
Proof.
  revert i k. induction signs as [|s0 rest IH]; intros i k Hs Hk Hbefore; [discriminate|].
  simpl. destruct k as [|k]; simpl in Hs.
  - injection Hs as ->. rewrite Hk. f_equal. lia.
  - rewrite (Hbefore 0 s0) by (first [lia | reflexivity]).
    rewrite (IH (S i) k); [f_equal; lia | assumption | assumption |].
    intros k' s' Hlt Hs'. apply (Hbefore (S k')); [lia | assumption].
Qed.

(** The search only looks at keys. *)
Lemma find_target_same_keys lang email signs signs' i :
  Forall2 (fun a b => same_key lang email a = same_key lang email b) signs signs' ->
  find_target lang email signs i = find_target lang email signs' i.
Proof.
  intros H. revert i. induction H as [|a b l l' Hab _ IH]; intros i; simpl; [reflexivity|].
  rewrite Hab, IH. reflexivity.
Qed.

Lemma find_target_clear lang email lang' signs i :
  find_target lang email (clear_default lang' <$> signs) i = find_target lang email signs i.
Proof.
  apply find_target_same_keys. apply Forall2_fmap_l, Forall_Forall2_diag, Forall_forall.
  intros s _. apply same_key_clear_default.
Qed.

Lemma find_target_clear_defaults lang email md lang' signs i :
  find_target lang email (clear_defaults md lang' signs) i
  = find_target lang email signs i.
Proof. destruct md; [apply find_target_clear | reflexivity]. Qed.

(** ** The shape of the result of [upsert_sign] *)

Lemma clear_defaults_length md lang signs :
  length (clear_defaults md lang signs) = length signs.
Proof. destruct md; simpl; [apply length_fmap | reflexivity]. Qed.

Lemma clear_defaults_lookup md lang signs i :
  clear_defaults md lang signs !! i
  = (fun s => if md then clear_default lang s else s) <$> signs !! i.
Proof.
  destruct md; simpl; [apply list_lookup_fmap|].
  destruct (signs !! i); reflexivity.
Qed.

Lemma clear_defaults_idem md lang signs :
  clear_defaults md lang (clear_defaults md lang signs) = clear_defaults md lang signs.
Proof.
  destruct md; simpl; [|reflexivity].
  rewrite <- list_fmap_compose. apply list_fmap_ext.
  intros i s _. apply clear_default_idem.
Qed.

Lemma upsert_sign_hit signs lang email text md i :
  find_target lang email signs 0 = Some i ->
  upsert_sign signs lang email text md
  = alter (update (new_entry lang email text md)) i (clear_defaults md lang signs).
Proof.
  intros H. unfold upsert_sign. rewrite find_target_clear_defaults, H. reflexivity.
Qed.

Lemma upsert_sign_miss signs lang email text md :
  find_target lang email signs 0 = None ->
  upsert_sign signs lang email text md
  = clear_defaults md lang signs ++ [new_entry lang email text md].
Proof.
  intros H. unfold upsert_sign. rewrite find_target_clear_defaults, H. reflexivity.
Qed.

(** ** Counting the entries of a key *)

Lemma count_key_app lang email l1 l2 :
  count_key lang email (l1 ++ l2) = count_key lang email l1 + count_key lang email l2.
Proof. unfold count_key. rewrite List.filter_app, length_app. reflexivity. Qed.

Lemma count_key_same_keys lang email l l' :
  Forall2 (fun a b => same_key lang email a = same_key lang email b) l l' ->
  count_key lang email l = count_key lang email l'.
Proof.
  unfold count_key. induction 1 as [|a b l l' Hab _ IH]; simpl; [reflexivity|].
  rewrite Hab. destruct (same_key lang email b); simpl; congruence.
Qed.

Lemma count_key_clear_defaults lang email md lang' signs :
  count_key lang email (clear_defaults md lang' signs) = count_key lang email signs.
Proof.
  destruct md; simpl; [|reflexivity].
  apply count_key_same_keys, Forall2_fmap_l, Forall_Forall2_diag, Forall_forall.
  intros s _. apply same_key_clear_default.
Qed.

Lemma count_key_none lang email signs :
  (forall k s, signs !! k = Some s -> same_key lang email s = false) ->
  count_key lang email signs = 0.
Proof.
  unfold count_key. induction signs as [|s0 rest IH]; intros H; simpl; [reflexivity|].
  rewrite (H 0 s0) by reflexivity. apply IH. intros k s Hs. apply (H (S k)). exact Hs.
Qed.

Lemma count_key_some lang email signs k s :
  signs !! k = Some s -> same_key lang email s = true ->
  1 <= count_key lang email signs.
Proof.
  unfold count_key. revert k. induction signs as [|s0 rest IH]; intros k Hs Hk; [discriminate|].
  simpl. destruct k as [|k]; simpl in Hs.
  - injection Hs as ->. rewrite Hk. simpl. lia.
  - specialize (IH k Hs Hk). destruct (same_key lang email s0); simpl; lia.
Qed.

Lemma alter_same_keys lang email (f : Sign -> Sign) i signs :
  (forall s, signs !! i = Some s -> same_key lang email (f s) = same_key lang email s) ->
  Forall2 (fun a b => same_key lang email a = same_key lang email b)
          (alter f i signs) signs.
Proof.
  revert i. induction signs as [|s0 rest IH]; intros i H; [constructor|].
  destruct i as [|i]; simpl.
  - constructor; [apply H; reflexivity|].
    apply Forall_Forall2_diag, Forall_forall. reflexivity.
  - constructor; [reflexivity|]. apply IH. intros s Hs. apply H. exact Hs.
Qed.

(** After [upsert_sign] the key has as many entries as before, and one if
    it had none. *)
Lemma count_key_upsert_sign signs lang email text md :
  count_key lang email (upsert_sign signs lang email text md)
  = Nat.max 1 (count_key lang email signs).
Proof.
  destruct (find_target lang email signs 0) as [i|] eqn:Hfind.
  - rewrite (upsert_sign_hit _ _ _ _ _ _ Hfind).
    destruct (find_target_Some _ _ _ _ _ Hfind) as (k & s & -> & Hs & Hk & _).
    simpl. pose proof (count_key_some _ _ _ _ _ Hs Hk) as Hge.
    rewrite (count_key_same_keys _ _ _ (clear_defaults md lang signs)).
    + rewrite count_key_clear_defaults. lia.
    + apply alter_same_keys. intros s1 Hs1.
      rewrite clear_defaults_lookup, Hs in Hs1. simpl in Hs1. injection Hs1 as <-.
      assert (same_key lang email (if md then clear_default lang s else s) = true) as Hk'.
      { destruct md; [rewrite same_key_clear_default|]; exact Hk. }
      rewrite Hk'. apply same_key_update. exact Hk'.
  - rewrite (upsert_sign_miss _ _ _ _ _ Hfind), count_key_app, count_key_clear_defaults.
    rewrite (count_key_none _ _ _ (find_target_None _ _ _ _ Hfind)).
    unfold count_key. simpl. rewrite same_key_new_entry. reflexivity.
Qed.

(** A second call with the same arguments changes nothing. *)
Lemma upsert_sign_idem signs lang email text md :
  upsert_sign (upsert_sign signs lang email text md) lang email text md
  = upsert_sign signs lang email text md.
Proof.
  destruct (find_target lang email signs 0) as [i|] eqn:Hfind.
  - rewrite (upsert_sign_hit _ _ _ _ _ _ Hfind).
    destruct (find_target_Some _ _ _ _ _ Hfind) as (k & s & Hi & Hs & Hk & _).
    simpl in Hi. subst k.
    assert (same_key lang email (if md then clear_default lang s else s) = true) as Hk'.
    { destruct md; [rewrite same_key_clear_default|]; exact Hk. }
    rewrite (upsert_sign_hit _ _ _ _ _ i).
    + apply list_eq. intros j. destruct (decide (i = j)) as [<-|Hne].
      * rewrite !list_lookup_alter_eq, clear_defaults_lookup, list_lookup_alter_eq,
          clear_defaults_lookup, Hs. simpl. f_equal.
        destruct md; [apply update_clear_update | apply update_update].
      * rewrite !list_lookup_alter_ne, clear_defaults_lookup, list_lookup_alter_ne,
          <- clear_defaults_lookup, clear_defaults_idem by assumption. reflexivity.
    + rewrite <- Hfind.
      rewrite <- (find_target_clear_defaults lang email md lang signs 0).
      apply find_target_same_keys, alter_same_keys. intros s1 Hs1.
      rewrite clear_defaults_lookup, Hs in Hs1. simpl in Hs1. injection Hs1 as <-.
      rewrite Hk'. apply same_key_update. exact Hk'.
  - rewrite (upsert_sign_miss _ _ _ _ _ Hfind).
    pose proof (find_target_None _ _ _ _ Hfind) as Hnone.
    set (n := length (clear_defaults md lang signs)).
    rewrite (upsert_sign_hit _ _ _ _ _ n).
    + apply list_eq. intros j. destruct (decide (n = j)) as [<-|Hne].
      * rewrite list_lookup_alter_eq, clear_defaults_lookup.
        rewrite !lookup_app_r by (unfold n; lia).
        replace (n - length (clear_defaults md lang signs)) with 0 by (unfold n; lia).
        simpl. f_equal.
        destruct md; [rewrite update_clear_default|]; apply update_new_entry.
      * rewrite list_lookup_alter_ne by assumption.
        rewrite clear_defaults_lookup.
        destruct (decide (j < n)) as [Hlt|Hge].
        -- rewrite !lookup_app_l by (unfold n in Hlt; exact Hlt).
           rewrite <- clear_defaults_lookup, clear_defaults_idem. reflexivity.
        -- rewrite lookup_ge_None_2; [reflexivity|].
           rewrite length_app; simpl; unfold n in *; lia.
    + apply (find_target_first _ _ _ 0 n (new_entry lang email text md)).
      * rewrite lookup_app_r by (unfold n; lia).
        replace (n - length (clear_defaults md lang signs)) with 0 by (unfold n; lia).
        reflexivity.
      * apply same_key_new_entry.
      * intros k' s' Hlt Hs'. rewrite lookup_app_l in Hs' by exact Hlt.
        rewrite clear_defaults_lookup in Hs'.
        destruct (signs !! k') as [s0|] eqn:Hs0; [|discriminate].
        simpl in Hs'. injection Hs' as <-.
        destruct md; [rewrite same_key_clear_default|]; eapply Hnone; exact Hs0.
Qed.

Lemma count_key_zero lang email signs k s :
  count_key lang email signs = 0 -> signs !! k = Some s ->
  same_key lang email s = false.
Proof.
  intros H0 Hs. destruct (same_key lang email s) eqn:Hk; [|reflexivity].
  pose proof (count_key_some _ _ _ _ _ Hs Hk). lia.
Qed.

Lemma find_target_middle lang email pre s post :
  count_key lang email pre = 0 -> same_key lang email s = true ->
  find_target lang email (pre ++ s :: post) 0 = Some (length pre).
Proof.
  intros H0 Hk.
  apply (find_target_first _ _ _ 0 (length pre) s).
  - apply list_lookup_middle. reflexivity.
  - exact Hk.
  - intros k' s' Hlt Hs'. rewrite lookup_app_l in Hs' by exact Hlt.
    eapply count_key_zero; eassumption.
Qed.

Lemma clear_defaults_app md lang l1 l2 :
  clear_defaults md lang (l1 ++ l2)
  = clear_defaults md lang l1 ++ clear_defaults md lang l2.
Proof. destruct md; simpl; [apply fmap_app | reflexivity]. Qed.

Lemma clear_defaults_cons md lang s l :
  clear_defaults md lang (s :: l)
  = (if md then clear_default lang s else s) :: clear_defaults md lang l.
Proof. destruct md; reflexivity. Qed.

Lemma alter_middle {A} (f : A -> A) (l1 l2 : list A) x :
  alter f (length l1) (l1 ++ x :: l2) = l1 ++ f x :: l2.
Proof. induction l1 as [|y l1 IH]; simpl; [reflexivity|]. f_equal. exact IH. Qed.

(** The entry that carries the key first is rewritten where it stands. *)
Lemma upsert_sign_middle lang email text md pre s post :
  count_key lang email pre = 0 -> same_key lang email s = true ->
  upsert_sign (pre ++ s :: post) lang email text md
  = clear_defaults md lang pre
    ++ update (new_entry lang email text md) s :: clear_defaults md lang post.
Proof.
  intros H0 Hk.
  rewrite (upsert_sign_hit _ _ _ _ _ _ (find_target_middle _ _ _ _ _ H0 Hk)).
  rewrite clear_defaults_app, clear_defaults_cons.
  rewrite <- (clear_defaults_length md lang pre), alter_middle.
  destruct md; [rewrite update_clear_default|]; reflexivity.
Qed.

Lemma count_key_two lang email signs i j si sj :
  i <> j -> signs !! i = Some si -> signs !! j = Some sj ->
  same_key lang email si = true -> same_key lang email sj = true ->
  2 <= count_key lang email signs.
Proof.
  revert i j. induction signs as [|s0 rest IH]; intros i j Hne Hi Hj Hki Hkj; [discriminate|].
  change (count_key lang email (s0 :: rest))
    with (length (if same_key lang email s0
                  then s0 :: List.filter (same_key lang email) rest
                  else List.filter (same_key lang email) rest)).
  fold (count_key lang email rest).
  destruct i as [|i], j as [|j]; simpl in Hi, Hj; [congruence| | |].
  - injection Hi as ->. rewrite Hki. simpl.
    pose proof (count_key_some _ _ _ _ _ Hj Hkj). unfold count_key in *. lia.
  - injection Hj as ->. rewrite Hkj. simpl.
    pose proof (count_key_some _ _ _ _ _ Hi Hki). unfold count_key in *. lia.
  - assert (2 <= count_key lang email rest) by (apply (IH i j); auto).
    unfold count_key in *. destruct (same_key lang email s0); simpl; lia.
Qed.

(** ** Claims on [upsert_sign] *)

(** C1 (as stated, refuted): a list that already holds two entries of the
    key [(en, no address)] still holds two after [upsert_sign] has been
    applied twice with the same text and default flag. *)
Lemma upsert_sign_twice_keeps_duplicates :
  count_key "en" None
    (upsert_sign (upsert_sign two_unbound_en "en" None "C" true) "en" None "C" true)
  = 2.
Proof. vm_compute. reflexivity. Qed.

(** C1 (amended): when the list holds at most one entry of the key
    [(lang, email)], applying [upsert_sign] twice with the same text and
    default flag gives a list with exactly one entry of that key; and for
    every list, whatever it holds, the second call leaves what the first
    produced. *)
Theorem upsert_sign_twice_one_record signs lang email text md :
  (count_key lang email signs <= 1 ->
   count_key lang email
     (upsert_sign (upsert_sign signs lang email text md) lang email text md) = 1)
  /\ upsert_sign (upsert_sign signs lang email text md) lang email text md
     = upsert_sign signs lang email text md.
Proof.
  split; [|apply upsert_sign_idem].
  intros Hle. rewrite !count_key_upsert_sign. lia.
Qed.

Lemma upsert_sign_twice_one_record_witness :
  count_key "en" (Some "a@x.com") three_signs <= 1
  /\ count_key "en" (Some "a@x.com")
       (upsert_sign (upsert_sign three_signs "en" (Some "a@x.com") "Hi" true)
                    "en" (Some "a@x.com") "Hi" true) = 1
  /\ upsert_sign (upsert_sign two_unbound_en "en" None "C" true) "en" None "C" true
     = upsert_sign two_unbound_en "en" None "C" true.
Proof.
  split; [vm_compute; lia|]. split.
  - apply (proj1 (upsert_sign_twice_one_record three_signs "en" (Some "a@x.com")
                    "Hi" true)).
    vm_compute; lia.
  - apply (proj2 (upsert_sign_twice_one_record two_unbound_en "en" None "C" true)).
Defined.



(** C9 (as stated, refuted): with the default flag set, the later entry of
    the same key does not stay as it was: its [isDefault] is cleared. *)
Lemma upsert_sign_changes_later_duplicate :
  two_unbound_en !! 1 = Some sign_en_B
  /\ same_key "en" None sign_en_A = true /\ same_key "en" None sign_en_B = true
  /\ upsert_sign two_unbound_en "en" None "C" true !! 1
     = Some (mkSign (Some "B") (Some "en") (Some false) None [])
  /\ upsert_sign two_unbound_en "en" None "C" true !! 1 <> two_unbound_en !! 1.
Proof. vm_compute. repeat split; discriminate. Qed.

(** C9 (amended): when several entries carry the key, [upsert_sign]
    rewrites only the first of them with the new fields; a later entry of
    the key keeps its text, language, addresses and other fields, and its
    [isDefault] is cleared when [make_default] is set and kept otherwise.
    The list keeps its length and the key keeps its (two or more) entries. *)
Theorem upsert_sign_first_match_only signs lang email text md i j sj :
  find_target lang email signs 0 = Some i ->
  j <> i -> signs !! j = Some sj -> same_key lang email sj = true ->
  (exists si, signs !! i = Some si
     /\ upsert_sign signs lang email text md !! i
        = Some (update (new_entry lang email text md) si))
  /\ upsert_sign signs lang email text md !! j
     = Some (if md then set_isDefault false sj else sj)
  /\ length (upsert_sign signs lang email text md) = length signs
  /\ count_key lang email (upsert_sign signs lang email text md)
     = count_key lang email signs
  /\ 2 <= count_key lang email signs.
Proof.
  intros Hfind Hne Hj Hkj.
  destruct (find_target_Some _ _ _ _ _ Hfind) as (k & si & Hi & Hsi & Hki & _).
  simpl in Hi. subst k.
  pose proof (count_key_two lang email signs j i sj si Hne Hj Hsi Hkj Hki) as H2.
  rewrite count_key_upsert_sign, (upsert_sign_hit _ _ _ _ _ _ Hfind).
  repeat split.
  - exists si. split; [exact Hsi|].
    rewrite list_lookup_alter_eq, clear_defaults_lookup, Hsi. simpl. f_equal.
    destruct md; [apply update_clear_default | reflexivity].
  - rewrite list_lookup_alter_ne by congruence.
    rewrite clear_defaults_lookup, Hj. simpl.
    apply same_key_true in Hkj as [Hl _].
    destruct md; [|reflexivity].
    unfold clear_default. rewrite (proj2 (lang_is_true _ _) Hl). reflexivity.
  - rewrite length_alter. apply clear_defaults_length.
  - lia.
  - exact H2.
Qed.

Lemma upsert_sign_first_match_only_witness :
  (find_target "en" None two_unbound_en 0 = Some 0 /\ 1 <> 0
   /\ two_unbound_en !! 1 = Some sign_en_B /\ same_key "en" None sign_en_B = true)
  /\ upsert_sign two_unbound_en "en" None "C" false !! 1 = Some sign_en_B.
Proof.
  split; [repeat split; lia|].
  apply (upsert_sign_first_match_only two_unbound_en "en" None "C" false 0 1 sign_en_B);
    [reflexivity | lia | reflexivity | reflexivity].
Defined.

(** C10 (as stated, refuted): an entry with an explicit empty [emails]
    list is not the one overwritten when an earlier entry carries the same
    key: the earlier entry takes the new text, the entry with the empty
    list keeps its own. *)
Lemma upsert_sign_earlier_record_wins :
  same_key "en" None sign_en_empty = true
  /\ upsert_sign [sign_en_A; sign_en_empty] "en" None "New" true
     = [mkSign (Some "New") (Some "en") (Some true) None [];
        mkSign (Some "E") (Some "en") (Some false) (Some []) [("color", "red")]].
Proof. split; reflexivity. Qed.

(** C10 (amended): an entry whose [emails] is an explicit empty list has
    the same binding as one without [emails]: when no earlier entry
    carries the key, an [upsert_sign] with no address matches it and
    rewrites it where it stands (its [emails] stays the empty list);
    nothing is appended. *)
Theorem upsert_sign_empty_emails lang email text md pre s post :
  truthy email = false -> s_lang s = Some lang -> s_emails s = Some [] ->
  count_key lang email pre = 0 ->
  same_key lang email s = true
  /\ same_key lang email
       (mkSign (s_text s) (s_lang s) (s_isDefault s) None (s_others s)) = true
  /\ upsert_sign (pre ++ s :: post) lang email text md
     = clear_defaults md lang pre
       ++ mkSign (Some text) (Some lang) (Some md) (Some []) (s_others s)
       :: clear_defaults md lang post.
Proof.
  intros He Hl Hem H0.
  assert (want_emails email = []) as Hwant.
  { destruct email as [e|]; [|reflexivity]. simpl in *. rewrite He. reflexivity. }
  assert (bound_emails email = None) as Hbound.
  { destruct email as [e|]; [|reflexivity]. simpl in *. rewrite He. reflexivity. }
  assert (same_key lang email s = true) as Hk.
  { apply same_key_true. unfold cur_emails. rewrite Hem, Hwant. split; [exact Hl | reflexivity]. }
  split; [exact Hk|]. split.
  - apply same_key_true. unfold cur_emails. simpl. rewrite Hwant.
    split; [exact Hl | reflexivity].
  - rewrite (upsert_sign_middle _ _ _ _ _ _ _ H0 Hk).
    unfold update, new_entry. simpl. rewrite Hbound, Hem. reflexivity.
Qed.

Lemma upsert_sign_empty_emails_witness :
  (truthy None = false /\ s_lang sign_en_empty = Some "en"
   /\ s_emails sign_en_empty = Some [] /\ count_key "en" None [sign_ru; sign_en_bound] = 0)
  /\ upsert_sign ([sign_ru; sign_en_bound] ++ sign_en_empty :: [sign_en_A]) "en" None "New" true
     = [sign_ru;
        mkSign (Some "Old") (Some "en") (Some false) (Some ["b@x.com"]) [];
        mkSign (Some "New") (Some "en") (Some true) (Some []) [("color", "red")];
        sign_en_A].
Proof.
  split; [repeat split|].
  apply (upsert_sign_empty_emails "en" None "New" true
           [sign_ru; sign_en_bound] sign_en_empty [sign_en_A]); reflexivity.
Defined.

(** ** Claims on [user_owns_email] *)

Lemma nonempty_true s : nonempty s = true <-> s <> "".
Proof. destruct s; simpl; split; congruence. Qed.

Lemma alias_is_true needle e :
  alias_is needle e = true <->
  exists a, alias_value e = Some a /\ lower (strip a) = needle.
Proof.
  destruct e as [a|address|]; simpl.
  - rewrite String.eqb_eq. split; [intros H; exists a; auto|].
    intros (a' & [= <-] & H). exact H.
  - rewrite String.eqb_eq. split; [intros H; eexists; eauto|].
    intros (a' & [= <-] & H). exact H.
  - split; [discriminate | intros (a & H & _); discriminate].
Qed.

Lemma scan_aliases_true user needle :
  existsb (fun key =>
             match user_get_list user key with
             | Some maybe => existsb (alias_is needle) maybe
             | None => false
             end)
          ["aliases"; "emails"; "alternateEmails"] = true
  <-> exists e a, is_alias user e /\ alias_value e = Some a
                  /\ lower (strip a) = needle.
Proof.
  rewrite existsb_exists. split.
  - intros (key & Hin & H).
    destruct (user_get_list user key) as [maybe|] eqn:Hget; [|discriminate].
    apply existsb_exists in H as (e & He & H).
    apply alias_is_true in H as (a & Ha & H).
    exists e, a. split; [exists key, maybe; auto | auto].
  - intros (e & a & (key & maybe & Hin & Hget & He) & Ha & H).
    exists key. split; [exact Hin|]. rewrite Hget.
    apply existsb_exists. exists e. split; [exact He|].
    apply alias_is_true. exists a. auto.
Qed.

(** What [user_owns_email] computes, for every card and candidate: the
    candidate is not the empty string, and its normal form is that of a
    primary address with a non-empty normal form, or that of the string
    some alias is compared as. *)
Lemma user_owns_email_true user email :
  user_owns_email user email = true <->
  email <> "" /\
  ((lower (strip (or_str (u_email user) "")) <> ""
    /\ same_address (or_str (u_email user) "") email)
   \/ exists e a, is_alias user e /\ alias_value e = Some a /\ same_address a email).
Proof.
  unfold user_owns_email, same_address.
  destruct (nonempty email) eqn:Hne; cbn [negb].
  - apply nonempty_true in Hne.
    destruct (nonempty (lower (strip (or_str (u_email user) ""))) &&
              (lower (strip (or_str (u_email user) "")) =? lower (strip email))%string)
      eqn:Hp.
    + apply andb_true_iff in Hp as [Hp1 Hp2].
      apply nonempty_true in Hp1. apply String.eqb_eq in Hp2.
      split; [intros _; split; [exact Hne | left; auto] | reflexivity].
    + rewrite scan_aliases_true. split.
      * intros H. split; [exact Hne | right; exact H].
      * intros [_ [[Hp1 Hp2] | H]]; [|exact H].
        apply nonempty_true in Hp1. apply String.eqb_eq in Hp2.
        rewrite Hp1, Hp2 in Hp. discriminate.
  - destruct email; [|discriminate]. split; [discriminate | intros [H _]; congruence].
Qed.



Example user_owns_email_ex :
  user_owns_email user_ann " ANN@x.com " = true
  /\ user_owns_email user_ann "bob@x.com" = false
  /\ user_owns_email user_ann "" = false.
Proof. vm_compute. auto. Qed.

(** ** The transport *)

Lemma backoff_loop_cons {Remote} (session : Remote -> Request -> Reply * Remote)
    attempt rest last method url data w :
  backoff_loop session (attempt :: rest) last method url data w
  = match session w (mkRequest method url data) with
    | (Returns resp, w1) =>
        if retriable (status_code resp) then
          match backoff_loop session rest (Some resp) method url data w1 with
          | (r, w2, ev) =>
              (r, w2, Sent (mkRequest method url data)
                      :: Backoff (backoff_wait attempt) :: ev)
          end
        else (Ok resp, w1, [Sent (mkRequest method url data)])
    | (Fails, w1) => (Raise RequestFailed, w1, [Sent (mkRequest method url data)])
    end.
Proof.
  simpl. unfold bind, request, emit, ret.
  destruct (session w (mkRequest method url data)) as [[resp|] w1]; [|reflexivity].
  destruct (retriable (status_code resp)); [|reflexivity].
  destruct (backoff_loop session rest (Some resp) method url data w1) as [[r w2] ev].
  reflexivity.
Qed.

(** Closes the side conditions of a run that ends with its first attempt. *)
Ltac one_attempt :=
  repeat split; simpl;
  first [ reflexivity | lia | intros; lia | intros; discriminate | intros; congruence ].

(** The loop over a non-empty list of attempt numbers: it sends the request
    [n] times, every reply but the last calls for a retry, and the last
    reply decides the result. *)
Lemma backoff_loop_spec {Remote} (session : Remote -> Request -> Reply * Remote)
    attempts last method url data w :
  attempts <> [] ->
  exists n reps w' final,
    1 <= n <= length attempts
    /\ replay session w (mkRequest method url data) n = (reps, w')
    /\ (forall i rep, S i < n -> reps !! i = Some rep -> calls_for_retry rep = true)
    /\ reps !! (n - 1) = Some final
    /\ (calls_for_retry final = true -> n = length attempts)
    /\ backoff_loop session attempts last method url data w
       = (match final with Returns resp => Ok resp | Fails => Raise RequestFailed end,
          w', transcript (mkRequest method url data) attempts reps).
Proof.
  revert last w. induction attempts as [|attempt rest IH]; intros last w Hne; [congruence|].
  rewrite backoff_loop_cons.
  destruct (session w (mkRequest method url data)) as [rep w1] eqn:Hrep.
  destruct rep as [resp|].
  - destruct (retriable (status_code resp)) eqn:Hretry.
    + destruct rest as [|attempt' rest'].
      * exists 1, [Returns resp], w1, (Returns resp). simpl. rewrite Hrep, Hretry.
        one_attempt.
      * destruct (IH (Some resp) w1) as (n & reps & w' & final & Hn & Hreplay & Hall & Hfinal & Hstop & Hrun);
          [discriminate|].
        rewrite Hrun.
        exists (S n), (Returns resp :: reps), w', final.
        split; [simpl in *; lia|].
        split; [simpl; rewrite Hrep, Hreplay; reflexivity|].
        split.
        { intros [|i] rep Hi Hlook; simpl in Hlook.
          - injection Hlook as <-. exact Hretry.
          - apply (Hall i); [lia | exact Hlook]. }
        split.
        { replace (S n - 1) with (S (n - 1)) by lia. exact Hfinal. }
        split.
        { intros Hf. simpl. f_equal. apply Hstop. exact Hf. }
        simpl. rewrite Hretry. reflexivity.
    + exists 1, [Returns resp], w1, (Returns resp). simpl. rewrite Hrep, Hretry.
      one_attempt.
  - exists 1, [Fails], w1, Fails. simpl. rewrite Hrep.
    one_attempt.
Qed.

Lemma backoff_wait_le_30 attempt : (backoff_wait attempt <= 30)%Q.
Proof. unfold backoff_wait. apply Q.le_min_l. Qed.

(** C3: [backoff_request] sends the request between one and six times.
    Every reply but the last had a status in {429, 500, 502, 503, 504};
    a last reply with such a status is the sixth; the result is the last
    response as received, also when the attempts are exhausted, and an
    exception only if [session.request] raised.  A wait follows each reply
    with a status of the set (none follows another reply), the waits of
    attempts 1 to 6 are 0.5, 1, 2, 4, 8 and 16 seconds, and no wait
    exceeds 30 seconds. *)
Theorem backoff_request_spec {Remote} (session : Remote -> Request -> Reply * Remote)
    method url data w :
  exists n reps w' final,
    1 <= n <= 6
    /\ replay session w (mkRequest method url data) n = (reps, w')
    /\ (forall i rep, S i < n -> reps !! i = Some rep ->
          exists resp, rep = Returns resp /\ retriable (status_code resp) = true)
    /\ reps !! (n - 1) = Some final
    /\ (forall resp, final = Returns resp ->
          retriable (status_code resp) = true -> n = 6)
    /\ backoff_request session method url data w
       = (match final with Returns resp => Ok resp | Fails => Raise RequestFailed end,
          w', transcript (mkRequest method url data) [1; 2; 3; 4; 5; 6]%Z reps)
    /\ (forall status, retriable status = true <->
          In status [429; 500; 502; 503; 504]%Z)
    /\ Forall2 Qeq (backoff_wait <$> [1; 2; 3; 4; 5; 6]%Z)
                   [1 # 2; 1; 2; 4; 8; 16]%Q
    /\ (forall attempt, backoff_wait attempt <= 30)%Q.
Proof.
  destruct (backoff_loop_spec session [1; 2; 3; 4; 5; 6]%Z None method url data w)
    as (n & reps & w' & final & Hn & Hreplay & Hall & Hfinal & Hstop & Hrun);
    [discriminate|].
  exists n, reps, w', final. repeat split; try (simpl in Hn; lia); auto.
  - intros i rep Hi Hlook. specialize (Hall i rep Hi Hlook).
    destruct rep as [resp|]; [exists resp; auto | discriminate].
  - intros resp -> Hretry. apply Hstop. exact Hretry.
  - unfold retriable. rewrite existsb_exists.
    intros (x & Hin & Heq). apply Z.eqb_eq in Heq. subst x. exact Hin.
  - unfold retriable. rewrite existsb_exists.
    intros Hin. exists status. split; [exact Hin | apply Z.eqb_refl].
  - simpl. repeat constructor.
  - apply backoff_wait_le_30.
Qed.

Example backoff_request_exhausted :
  let run := backoff_request (scripted [503; 500; 429; 502; 504; 503; 200]%Z None)
                             "GET" "u" None 0 in
  result_of run = Ok (mkResponse 503 "" None)
  /\ length (requests (events_of run)) = 6
  /\ Forall2 Qeq (backoffs (events_of run)) [1 # 2; 1; 2; 4; 8; 16]%Q.
Proof. vm_compute. repeat split; repeat constructor. Qed.

Example backoff_request_not_found :
  backoff_request (scripted [500; 404]%Z None) "GET" "u" None 0
  = (Ok (mkResponse 404 "" None), 2,
     [Sent (mkRequest "GET" "u" None); Backoff (backoff_wait 1);
      Sent (mkRequest "GET" "u" None)]).
Proof. reflexivity. Qed.

(** ** Events of the API calls *)

Lemma replay_length {Remote} (session : Remote -> Request -> Reply * Remote)
    w req n reps w' :
  replay session w req n = (reps, w') -> length reps = n.
Proof.
  revert w reps w'. induction n as [|n IH]; intros w reps w' H; simpl in H.
  - injection H as <- _. reflexivity.
  - destruct (session w req) as [rep w1].
    destruct (replay session w1 req n) as [reps1 w2] eqn:Hrec.
    injection H as <- _. simpl. f_equal. eapply IH. exact Hrec.
Qed.


Lemma transcript_transport req attempts reps :
  Forall transport_event (transcript req attempts reps).
Proof.
  revert attempts. induction reps as [|rep reps IH]; intros [|attempt attempts];
    simpl; try constructor; [exact I|].
  destruct (calls_for_retry rep); simpl; [constructor; [exact I|]|]; apply IH.
Qed.

Lemma transport_paces ev : Forall transport_event ev -> paces ev = [].
Proof.
  induction 1 as [|e ev He _ IH]; [reflexivity|].
  destruct e; simpl in *; try contradiction; exact IH.
Qed.

Lemma transport_outcomes ev : Forall transport_event ev -> outcomes ev = [].
Proof.
  induction 1 as [|e ev He _ IH]; [reflexivity|].
  destruct e; simpl in *; try contradiction; exact IH.
Qed.

Lemma posted_transcript_get url attempts reps :
  posted (transcript (mkRequest "GET" url None) attempts reps) = [].
Proof.
  revert attempts. induction reps as [|rep reps IH]; intros [|attempt attempts];
    simpl; try reflexivity.
  destruct (calls_for_retry rep); simpl; apply IH.
Qed.

Lemma posted_transcript_post url body attempts reps :
  length reps <= length attempts ->
  posted (transcript (mkRequest "POST" url (Some body)) attempts reps)
  = replicate (length reps) body.
Proof.
  revert attempts. induction reps as [|rep reps IH]; intros [|attempt attempts] Hlen;
    simpl in *; try reflexivity; [lia|].
  destruct (calls_for_retry rep); simpl; f_equal; apply IH; lia.
Qed.

(** What a run of [backoff_request] leaves behind, whatever its result. *)
Lemma backoff_request_events {Remote} (session : Remote -> Request -> Reply * Remote)
    method url data w :
  exists reps,
    1 <= length reps <= 6
    /\ events_of (backoff_request session method url data w)
       = transcript (mkRequest method url data) [1; 2; 3; 4; 5; 6]%Z reps.
Proof.
  destruct (backoff_loop_spec session [1; 2; 3; 4; 5; 6]%Z None method url data w)
    as (n & reps & w' & final & Hn & Hreplay & _ & _ & _ & Hrun); [discriminate|].
  exists reps. rewrite (replay_length _ _ _ _ _ _ Hreplay).
  unfold backoff_request. rewrite Hrun. auto.
Qed.

Lemma get_user_events {Remote} (session : Remote -> Request -> Reply * Remote)
    org_id user_id w :
  events_of (get_user session org_id user_id w)
  = events_of (backoff_request session "GET" (user_url org_id user_id) None w).
Proof.
  unfold get_user, bind.
  destruct (backoff_request session "GET" (user_url org_id user_id) None w)
    as [[[r|e] w1] ev]; [|reflexivity].
  unfold events_of, raise_for_status. simpl.
  destruct (status_code r =? 404)%Z; simpl; [apply app_nil_r|].
  destruct ((400 <=? status_code r)%Z && (status_code r <? 600)%Z); simpl;
    [apply app_nil_r|].
  destruct (json r) as [[user|current]|]; simpl; apply app_nil_r.
Qed.

Lemma get_sender_info_events {Remote} (session : Remote -> Request -> Reply * Remote)
    org_id user_id w :
  events_of (get_sender_info session org_id user_id w)
  = events_of (backoff_request session "GET" (sender_info_url org_id user_id) None w).
Proof.
  unfold get_sender_info, bind.
  destruct (backoff_request session "GET" (sender_info_url org_id user_id) None w)
    as [[[r|e] w1] ev]; [|reflexivity].
  unfold events_of, raise_for_status. simpl.
  destruct (status_code r =? 404)%Z; simpl; [apply app_nil_r|].
  destruct ((400 <=? status_code r)%Z && (status_code r <? 600)%Z); simpl;
    [apply app_nil_r|].
  destruct (json r) as [[user|current]|]; simpl; apply app_nil_r.
Qed.

(** ** The stages of a row *)

Lemma quiet_nil : quiet [].
Proof. repeat split. Qed.

Lemma quiet_app ev1 ev2 : quiet ev1 -> quiet ev2 -> quiet (ev1 ++ ev2).
Proof.
  intros (Hp1 & Ho1 & Hb1) (Hp2 & Ho2 & Hb2). unfold quiet, paces, outcomes, posted in *.
  rewrite !omap_app, Hp1, Hp2, Ho1, Ho2, Hb1, Hb2. auto.
Qed.

Lemma quiet_get_transcript url attempts reps :
  quiet (transcript (mkRequest "GET" url None) attempts reps).
Proof.
  pose proof (transcript_transport (mkRequest "GET" url None) attempts reps) as H.
  repeat split;
    [apply transport_paces | apply transport_outcomes | apply posted_transcript_get]; auto.
Qed.

Lemma get_user_quiet {Remote} (session : Remote -> Request -> Reply * Remote)
    org_id user_id w :
  quiet (events_of (get_user session org_id user_id w)).
Proof.
  rewrite get_user_events.
  destruct (backoff_request_events session "GET" (user_url org_id user_id) None w)
    as (reps & _ & ->).
  apply quiet_get_transcript.
Qed.

Lemma get_sender_info_quiet {Remote} (session : Remote -> Request -> Reply * Remote)
    org_id user_id w :
  quiet (events_of (get_sender_info session org_id user_id w)).
Proof.
  rewrite get_sender_info_events.
  destruct (backoff_request_events session "GET" (sender_info_url org_id user_id) None w)
    as (reps & _ & ->).
  apply quiet_get_transcript.
Qed.

Lemma closes_row_intro args ev0 line :
  quiet ev0 -> is_outcome line = true ->
  closes_row args (ev0 ++ [Printed line; Pace (interval args)]).
Proof. intros Hq Hl. exists ev0, line. auto. Qed.

(** Lines 213-234: either the row goes on and nothing but requests, waits
    and at most a note has happened, or it is closed with its outcome. *)
Lemma check_email_run {Remote} (session : Remote -> Request -> Reply * Remote)
    args user_id csv_email w :
  match check_email session args user_id csv_email w with
  | (Ok (Some _), _, ev) => quiet ev
  | (Ok None, _, ev) => closes_row args ev
  | (Raise _, _, ev) => quiet ev
  end.
Proof.
  unfold check_email. destruct (nonempty csv_email); [|apply quiet_nil].
  unfold bind. pose proof (get_user_quiet session (org_id args) user_id w) as Hq.
  destruct (get_user session (org_id args) user_id w) as [[[user|e] w1] ev1];
    unfold events_of in Hq; simpl in Hq; [|exact Hq].
  destruct user as [user|].
  - destruct (user_owns_email user csv_email); simpl.
    + rewrite app_nil_r. exact Hq.
    + destruct (strict_email args); simpl.
      * apply closes_row_intro; auto.
      * apply quiet_app; [exact Hq | repeat split].
  - destruct (strict_email args); simpl.
    + apply closes_row_intro; auto.
    + apply quiet_app; [exact Hq | repeat split].
Qed.

(** Lines 238-255. *)
Lemma build_body_run {Remote} (session : Remote -> Request -> Reply * Remote)
    args user_id lang email_to_bind text_norm w :
  match build_body session args user_id lang email_to_bind text_norm w with
  | (Ok (Some _), _, ev) => quiet ev
  | (Ok None, _, ev) => closes_row args ev
  | (Raise _, _, ev) => quiet ev
  end.
Proof.
  unfold build_body. destruct (merge args); [|apply quiet_nil].
  unfold try_except_HTTPError, bind.
  pose proof (get_sender_info_quiet session (org_id args) user_id w) as Hq.
  destruct (get_sender_info session (org_id args) user_id w) as [[[current|e] w1] ev1];
    unfold events_of in Hq; simpl in Hq.
  - simpl. rewrite !app_nil_r. exact Hq.
  - destruct e; simpl; rewrite ?app_nil_r; try exact Hq.
    apply closes_row_intro; auto.
Qed.

(** Lines 257-264: an outcome line at the end, and before it nothing but
    the requests that carry [body] and their waits. *)
Lemma submit_run {Remote} (session : Remote -> Request -> Reply * Remote)
    args user_id body w :
  match submit session args user_id body w with
  | (Ok _, _, ev) =>
      exists ev0 line n,
        ev = ev0 ++ [Printed line] /\ is_outcome line = true
        /\ paces ev0 = [] /\ outcomes ev0 = []
        /\ posted ev0 = replicate n body
        /\ (if dry_run args then n = 0 else 1 <= n <= 6)
  | (Raise _, _, ev) =>
      paces ev = [] /\ outcomes ev = []
      /\ exists n, posted ev = replicate n body /\ 1 <= n <= 6
  end.
Proof.
  unfold submit. destruct (dry_run args).
  - simpl. exists [], (DRY user_id body), 0. repeat split.
  - unfold bind, post_sender_info.
    destruct (backoff_request_events session "POST"
                (sender_info_url (org_id args) user_id) (Some body) w)
      as (reps & Hlen & Hev).
    pose proof (transcript_transport
                  (mkRequest "POST" (sender_info_url (org_id args) user_id) (Some body))
                  [1; 2; 3; 4; 5; 6]%Z reps) as Htr.
    pose proof (posted_transcript_post (sender_info_url (org_id args) user_id) body
                  [1; 2; 3; 4; 5; 6]%Z reps (proj2 Hlen)) as Hposted.
    destruct (backoff_request session "POST" (sender_info_url (org_id args) user_id)
                (Some body) w) as [[[resp|e] w1] ev1];
      unfold events_of in Hev; simpl in Hev; subst ev1.
    + destruct (status_code resp =? 200)%Z; simpl;
        eexists _, _, (length reps);
        (split; [reflexivity|]);
        repeat split;
        auto using transport_paces, transport_outcomes; lia.
    + repeat split; auto using transport_paces, transport_outcomes.
      exists (length reps). auto.
Qed.

Lemma paces_app ev1 ev2 : paces (ev1 ++ ev2) = paces ev1 ++ paces ev2.
Proof. apply omap_app. Qed.

Lemma outcomes_app ev1 ev2 : outcomes (ev1 ++ ev2) = outcomes ev1 ++ outcomes ev2.
Proof. apply omap_app. Qed.

Lemma posted_app ev1 ev2 : posted (ev1 ++ ev2) = posted ev1 ++ posted ev2.
Proof. apply omap_app. Qed.

Lemma outcomes_line line : is_outcome line = true -> outcomes [Printed line] = [line].
Proof. intros H. unfold outcomes. simpl. rewrite H. reflexivity. Qed.

(** A row given up on the way ends with its single outcome and one sleep. *)
Lemma closes_row_shape args ev :
  closes_row args ev ->
  exists ev0, ev = ev0 ++ [Pace (interval args)]
              /\ paces ev0 = [] /\ length (outcomes ev0) = 1 /\ posted ev0 = [].
Proof.
  intros (ev0 & line & -> & Hline & Hp & Ho & Hb).
  exists (ev0 ++ [Printed line]). split; [rewrite <- app_assoc; reflexivity|].
  rewrite paces_app, outcomes_app, posted_app, Hp, Ho, Hb, (outcomes_line _ Hline).
  auto.
Qed.

(** A row that is not skipped: when nothing is raised it ends with the
    pacing sleep, its only one, after exactly one outcome line; when an
    exception is raised there is neither sleep nor outcome. *)
Lemma process_row_run {Remote} (session : Remote -> Request -> Reply * Remote)
    args idx row w :
  nonempty (strip (row_userId row)) = true ->
  nonempty (strip (row_signature row)) = true ->
  match process_row session args idx row w with
  | (Ok _, _, ev) =>
      exists ev0, ev = ev0 ++ [Pace (interval args)]
                  /\ paces ev0 = [] /\ length (outcomes ev0) = 1
  | (Raise _, _, ev) => paces ev = [] /\ outcomes ev = []
  end.
Proof.
  intros Hu Ht. unfold process_row. rewrite Hu, Ht. cbn [negb orb].
  set (user_id := strip (row_userId row)).
  set (csv_email := strip (row_email row)).
  set (lang := if nonempty _ then _ else _).
  set (text_norm := normalize_signature _ _).
  unfold bind at 1.
  pose proof (check_email_run session args user_id csv_email w) as Hc.
  destruct (check_email session args user_id csv_email w) as [[[checked|e] w1] ev1];
    [|destruct Hc as (? & ? & _); auto].
  destruct checked as [email_to_bind|].
  - destruct Hc as (Hp1 & Ho1 & _). unfold bind at 1.
    pose proof (build_body_run session args user_id lang email_to_bind text_norm w1) as Hb.
    destruct (build_body session args user_id lang email_to_bind text_norm w1)
      as [[[built|e] w2] ev2].
    + destruct built as [body|].
      * destruct Hb as (Hp2 & Ho2 & _). unfold bind, emit.
        pose proof (submit_run session args user_id body w2) as Hs.
        destruct (submit session args user_id body w2) as [[[u|e] w3] ev3].
        -- destruct Hs as (ev0 & line & n & -> & Hline & Hp3 & Ho3 & _).
           exists (ev1 ++ ev2 ++ ev0 ++ [Printed line]).
           split; [rewrite <- !app_assoc; reflexivity|].
           rewrite !paces_app, !outcomes_app, Hp1, Hp2, Hp3, Ho1, Ho2, Ho3,
             (outcomes_line _ Hline). auto.
        -- destruct Hs as (Hp3 & Ho3 & _).
           rewrite !paces_app, !outcomes_app, Hp1, Hp2, Hp3, Ho1, Ho2, Ho3. auto.
      * apply closes_row_shape in Hb as (ev0 & -> & Hp2 & Ho2 & _).
        exists (ev1 ++ ev0). simpl.
        split; [rewrite app_nil_r, <- app_assoc; reflexivity|].
        rewrite paces_app, outcomes_app, Hp1, Hp2, Ho1. auto.
    + destruct Hb as (Hp2 & Ho2 & _).
      rewrite paces_app, outcomes_app, Hp1, Hp2, Ho1, Ho2. auto.
  - apply closes_row_shape in Hc as (ev0 & -> & Hp1 & Ho1 & _).
    exists ev0. simpl. rewrite app_nil_r. auto.
Qed.

(** ** Claims on the row loop *)

(** C6 (as stated, refuted): a row with an empty signature is skipped
    without any sleep. *)
Lemma skipped_row_does_not_sleep :
  process_row (scripted [] None) args_replace 1 row_no_signature 0
  = (Ok tt, 0, [Printed (SKIP 1)])
  /\ paces [Printed (SKIP 1)] = [].
Proof. split; reflexivity. Qed.

(** C6 (amended): a row that is not skipped and whose processing raises
    nothing ends with the sleep of [interval args] seconds, its only pacing
    sleep, after its single outcome line, whatever the outcome and whether
    or not a request was made; a skipped row prints its line and does not
    sleep. *)
Theorem process_row_pacing {Remote} (session : Remote -> Request -> Reply * Remote)
    args idx row w :
  result_of (process_row session args idx row w) = Ok tt ->
  if negb (nonempty (strip (row_userId row)))
     || negb (nonempty (strip (row_signature row)))
  then events_of (process_row session args idx row w) = [Printed (SKIP idx)]
  else exists ev0,
         events_of (process_row session args idx row w)
         = ev0 ++ [Pace (interval args)]
         /\ paces ev0 = [] /\ length (outcomes ev0) = 1.
Proof.
  intros Hok.
  destruct (nonempty (strip (row_userId row))) eqn:Hu;
    [destruct (nonempty (strip (row_signature row))) eqn:Ht|]; cbn [negb orb].
  - pose proof (process_row_run session args idx row w Hu Ht) as H.
    destruct (process_row session args idx row w) as [[[u|e] w1] ev]; [exact H | discriminate].
  - unfold process_row. rewrite Hu, Ht. reflexivity.
  - unfold process_row. rewrite Hu. reflexivity.
Qed.

Lemma process_row_pacing_witness :
  result_of (process_row (scripted [] None) args_dry 1 row_plain 0) = Ok tt
  /\ exists ev0,
       events_of (process_row (scripted [] None) args_dry 1 row_plain 0)
       = ev0 ++ [Pace (interval args_dry)]
       /\ paces ev0 = [] /\ length (outcomes ev0) = 1.
Proof.
  split; [reflexivity|].
  apply (process_row_pacing (scripted [] None) args_dry 1 row_plain 0). reflexivity.
Defined.

Lemma bind_ok {Remote A B} (m : M Remote A) (k : A -> M Remote B) w a w1 ev1 :
  m w = (Ok a, w1, ev1) ->
  bind m k w = match k a w1 with (r, w2, ev2) => (r, w2, ev1 ++ ev2) end.
Proof. intros H. unfold bind. rewrite H. reflexivity. Qed.

Lemma bind_raise {Remote A B} (m : M Remote A) (k : A -> M Remote B) w e w1 ev1 :
  m w = (Raise e, w1, ev1) -> bind m k w = (Raise e, w1, ev1).
Proof. intros H. unfold bind. rewrite H. reflexivity. Qed.

Lemma check_email_owned {Remote} (session : Remote -> Request -> Reply * Remote)
    args user_id csv_email user w w1 ev1 :
  nonempty csv_email = true ->
  get_user session (org_id args) user_id w = (Ok (Some user), w1, ev1) ->
  user_owns_email user csv_email = true ->
  check_email session args user_id csv_email w
  = (Ok (Some (Some csv_email)), w1, ev1).
Proof.
  intros Hne Hget Howns. unfold check_email, bind.
  rewrite Hne, Hget, Howns. simpl. rewrite app_nil_r. reflexivity.
Qed.

Lemma normalize_signature_Hi b : normalize_signature "Hi" b = "Hi".
Proof. destruct b; reflexivity. Qed.

(** C8: in replace mode with position [bottom], for the row
    [{userId: u1, email: a@x.com, signature: Hi, lang: en}] and a user card
    that owns [a@x.com], every body posted is
    [{signs: [{text: Hi, lang: en, isDefault: true, emails: [a@x.com]}],
      signPosition: bottom}], and it is posted at least once. *)
Theorem replace_mode_scenario_A {Remote} (session : Remote -> Request -> Reply * Remote)
    args idx user w w1 ev1 :
  merge args = false -> position args = "bottom" -> dry_run args = false ->
  get_user session (org_id args) "u1" w = (Ok (Some user), w1, ev1) ->
  user_owns_email user "a@x.com" = true ->
  exists n,
    1 <= n <= 6
    /\ posted (events_of (process_row session args idx
                            (mkRow "u1" "a@x.com" "Hi" (Some "en")) w))
       = replicate n
           (mkBody [mkSign (Some "Hi") (Some "en") (Some true) (Some ["a@x.com"]) []]
                   "bottom").
Proof.
  intros Hmerge Hpos Hdry Hget Howns.
  pose proof (get_user_quiet session (org_id args) "u1" w) as (_ & _ & Hq).
  rewrite Hget in Hq. unfold events_of in Hq. simpl in Hq.
  unfold process_row. cbn [row_userId row_email row_signature row_lang or_str nonempty].
  change (strip "u1") with "u1". change (strip "a@x.com") with "a@x.com".
  change (strip "Hi") with "Hi". change (lower (strip "en")) with "en".
  cbn [negb orb nonempty]. rewrite normalize_signature_Hi.
  rewrite (bind_ok _ _ _ _ _ _ (check_email_owned session args "u1" "a@x.com" user
                                  w w1 ev1 eq_refl Hget Howns)).
  rewrite (bind_ok _ _ _ (Some (mkBody [mkSign (Some "Hi") (Some "en") (Some true)
                                          (Some ["a@x.com"]) []] "bottom")) w1 []);
    [|unfold build_body; rewrite Hmerge, Hpos; reflexivity].
  pose proof (submit_run session args "u1"
                (mkBody [mkSign (Some "Hi") (Some "en") (Some true) (Some ["a@x.com"]) []]
                        "bottom") w1) as Hs.
  rewrite Hdry in Hs. unfold bind, emit.
  destruct (submit session args "u1" _ w1) as [[[u|e] w2] ev2].
  - destruct Hs as (ev0 & line & n & -> & _ & _ & _ & Hposted & Hn).
    exists n. split; [exact Hn|]. unfold events_of. simpl.
    rewrite !posted_app, Hq, Hposted. simpl. rewrite !app_nil_r. reflexivity.
  - destruct Hs as (_ & _ & n & Hposted & Hn).
    exists n. split; [exact Hn|]. unfold events_of. simpl.
    rewrite !posted_app, Hq, Hposted. reflexivity.
Qed.

Lemma replace_mode_scenario_A_witness :
  (get_user (scripted [200; 200]%Z (Some (DocUser user_a))) "org" "u1" 0
   = (Ok (Some user_a), 1, [Sent (mkRequest "GET" (user_url "org" "u1") None)])
   /\ user_owns_email user_a "a@x.com" = true)
  /\ exists n,
       1 <= n <= 6
       /\ posted (events_of (process_row (scripted [200; 200]%Z (Some (DocUser user_a)))
                               args_replace 1 row_en 0))
          = replicate n body_scenario_A.
Proof.
  split; [split; reflexivity|].
  apply (replace_mode_scenario_A (scripted [200; 200]%Z (Some (DocUser user_a)))
           args_replace 1 user_a 0 1
           [Sent (mkRequest "GET" (user_url "org" "u1") None)]);
    reflexivity.
Defined.

Example scenario_A_run :
  process_row (scripted [200; 200]%Z (Some (DocUser user_a))) args_replace 1 row_en 0
  = (Ok tt, 2,
     [Sent (mkRequest "GET" (user_url "org" "u1") None);
      Sent (mkRequest "POST" (sender_info_url "org" "u1") (Some body_scenario_A));
      Printed (OK "u1");
      Pace (interval args_replace)]).
Proof. reflexivity. Qed.

Lemma build_body_merge {Remote} (session : Remote -> Request -> Reply * Remote)
    args user_id lang email_to_bind text_norm current w w1 ev1 :
  merge args = true ->
  get_sender_info session (org_id args) user_id w = (Ok current, w1, ev1) ->
  build_body session args user_id lang email_to_bind text_norm w
  = (Ok (Some (mkBody (upsert_sign (default [] (si_signs current)) lang
                                   email_to_bind text_norm true)
                      (or_str (si_signPosition current) (position args)))),
     w1, ev1).
Proof.
  intros Hmerge Hget. unfold build_body, try_except_HTTPError, bind.
  rewrite Hmerge, Hget. simpl. rewrite !app_nil_r. reflexivity.
Qed.

(** C5 (as stated, refuted): when the settings fetch returns 404 and the
    configured position is [under], the body submitted in merge mode has
    position [bottom]. *)
Lemma merge_mode_404_ignores_position :
  position args_merge_under = "under"
  /\ process_row (scripted [404; 200]%Z None) args_merge_under 1 row_plain 0
     = (Ok tt, 2,
        [Sent (mkRequest "GET" (sender_info_url "org" "u2") None);
         Sent (mkRequest "POST" (sender_info_url "org" "u2")
                 (Some (mkBody [mkSign (Some "Bye") (Some "ru") (Some true) None []]
                               "bottom")));
         Printed (OK "u2");
         Pace (interval args_merge_under)]).
Proof. split; reflexivity. Qed.

(** C5 (amended): in merge mode, for a row that reaches the settings fetch
    and whose fetch yields settings, every body posted carries the position
    of those settings when they have a non-empty one and the configured
    position otherwise; when the fetch returned 404 the settings are the
    fixed defaults, whose position is [bottom] whatever is configured. *)
Theorem merge_mode_position {Remote} (session : Remote -> Request -> Reply * Remote)
    args idx row email_to_bind current w w0 ev0 w1 ev1 :
  merge args = true -> dry_run args = false ->
  nonempty (strip (row_userId row)) = true ->
  nonempty (strip (row_signature row)) = true ->
  check_email session args (strip (row_userId row)) (strip (row_email row)) w
  = (Ok (Some email_to_bind), w0, ev0) ->
  get_sender_info session (org_id args) (strip (row_userId row)) w0
  = (Ok current, w1, ev1) ->
  (exists n,
     1 <= n <= 6
     /\ signPosition <$> posted (events_of (process_row session args idx row w))
        = replicate n (match si_signPosition current with
                       | Some p => if nonempty p then p else position args
                       | None => position args
                       end))
  /\ (forall r,
        backoff_request session "GET"
          (sender_info_url (org_id args) (strip (row_userId row))) None w0
        = (Ok r, w1, ev1) ->
        status_code r = 404%Z ->
        exists n,
          1 <= n <= 6
          /\ signPosition <$> posted (events_of (process_row session args idx row w))
             = replicate n "bottom").
Proof.
  intros Hmerge Hdry Hu Ht Hcheck Hinfo.
  assert (exists n,
     1 <= n <= 6
     /\ signPosition <$> posted (events_of (process_row session args idx row w))
        = replicate n (match si_signPosition current with
                       | Some p => if nonempty p then p else position args
                       | None => position args
                       end)) as Hposted.
  2: { split; [exact Hposted|]. intros r Hback H404.
       unfold get_sender_info in Hinfo.
       rewrite (bind_ok _ _ _ _ _ _ Hback) in Hinfo.
       rewrite H404 in Hinfo. simpl in Hinfo. injection Hinfo as <- _.
       exact Hposted. }
  - pose proof (check_email_run session args (strip (row_userId row))
                  (strip (row_email row)) w) as Hq0.
    rewrite Hcheck in Hq0. destruct Hq0 as (_ & _ & Hq0).
    pose proof (get_sender_info_quiet session (org_id args) (strip (row_userId row)) w0)
      as (_ & _ & Hq1).
    rewrite Hinfo in Hq1. unfold events_of in Hq1. simpl in Hq1.
    unfold process_row. rewrite Hu, Ht. cbn [negb orb].
    set (lang := if nonempty _ then _ else _).
    set (text_norm := normalize_signature _ _).
    rewrite (bind_ok _ _ _ _ _ _ Hcheck).
    rewrite (bind_ok _ _ _ _ _ _
               (build_body_merge session args _ lang email_to_bind text_norm
                  current w0 w1 ev1 Hmerge Hinfo)).
    set (body := mkBody _ _).
    pose proof (submit_run session args (strip (row_userId row)) body w1) as Hs.
    rewrite Hdry in Hs. unfold bind, emit.
    destruct (submit session args (strip (row_userId row)) body w1) as [[[u|e] w2] ev2].
    + destruct Hs as (ev & line & n & -> & _ & _ & _ & Hposted & Hn).
      exists n. split; [exact Hn|]. unfold events_of. simpl.
      rewrite !posted_app, Hq0, Hq1, Hposted. simpl. rewrite !app_nil_r.
      rewrite fmap_replicate. reflexivity.
    + destruct Hs as (_ & _ & n & Hposted & Hn).
      exists n. split; [exact Hn|]. unfold events_of. simpl.
      rewrite !posted_app, Hq0, Hq1, Hposted. simpl.
      rewrite fmap_replicate. reflexivity.
Qed.

Lemma merge_mode_position_witness :
  (check_email (scripted [200; 200]%Z (Some (DocSenderInfo settings_under)))
     args_merge "u2" "" 0 = (Ok (Some None), 0, [])
   /\ get_sender_info (scripted [200; 200]%Z (Some (DocSenderInfo settings_under)))
        "org" "u2" 0
      = (Ok settings_under, 1, [Sent (mkRequest "GET" (sender_info_url "org" "u2") None)]))
  /\ exists n,
       1 <= n <= 6
       /\ signPosition <$> posted (events_of
             (process_row (scripted [200; 200]%Z (Some (DocSenderInfo settings_under)))
                          args_merge 1 row_plain 0))
          = replicate n "under".
Proof.
  split; [split; reflexivity|].
  apply (merge_mode_position (scripted [200; 200]%Z (Some (DocSenderInfo settings_under)))
           args_merge 1 row_plain None settings_under 0 0 [] 1
           [Sent (mkRequest "GET" (sender_info_url "org" "u2") None)]);
    reflexivity.
Defined.

(** ** Rows that cannot bring the run down *)



Lemma raise_for_status_error {Remote} (r : Response) (w : Remote) :
  (400 <= status_code r < 600)%Z ->
  raise_for_status r w = (Raise (HTTPError (status_code r)), w, []).
Proof.
  intros H. unfold raise_for_status.
  destruct (Z.leb_spec 400 (status_code r)), (Z.ltb_spec (status_code r) 600);
    simpl; try reflexivity; lia.
Qed.

















(** The run with the retried lookup, event by event: the 503 is followed
    by a wait and a second lookup, and both rows are posted. *)
Example main_loop_retry_absorbed :
  requests (events_of (main_loop (scripted [503]%Z (Some (DocUser user_a)))
                         args_replace 1 [row_en; row_plain] 0))
  = [mkRequest "GET" (user_url "org" "u1") None;
     mkRequest "GET" (user_url "org" "u1") None;
     mkRequest "POST" (sender_info_url "org" "u1") (Some body_scenario_A);
     mkRequest "POST" (sender_info_url "org" "u2")
       (Some (mkBody [mkSign (Some "Bye") (Some "ru") (Some true) None []] "bottom"))]
  /\ length (backoffs (events_of (main_loop (scripted [503]%Z (Some (DocUser user_a)))
                                    args_replace 1 [row_en; row_plain] 0))) = 1
  /\ result_of (main_loop (scripted [503]%Z (Some (DocUser user_a)))
                  args_replace 1 [row_en; row_plain] 0) = Ok tt.
Proof. repeat split. Qed.

Example main_loop_refusing_outcomes :
  outcomes (events_of (main_loop refusing args_merge 1
                         [row_en; row_plain; row_no_signature] tt))
  = [FAIL_post "u1" 500 "no"; FAIL_post "u2" 500 "no"; SKIP 3].
Proof. reflexivity. Qed.

(** The same run ends early when a user lookup is answered with 403: the
    [HTTPError] of [get_user] is caught nowhere. *)
Example main_loop_user_lookup_403 :
  main_loop (scripted [403]%Z None) args_replace 1 [row_en; row_plain] 0
  = (Raise (HTTPError 403), 1, [Sent (mkRequest "GET" (user_url "org" "u1") None)]).
Proof. reflexivity. Qed.

(** * Further properties *)

(** ** [upsert_sign]: size, defaults, lookup after update, other keys *)

(** A hit of the search splits the list at the first entry of the key. *)
Lemma find_target_split lang email signs i :
  find_target lang email signs 0 = Some i ->
  exists pre s post,
    signs = pre ++ s :: post /\ length pre = i
    /\ count_key lang email pre = 0 /\ same_key lang email s = true.
Proof.
  intros Hfind.
  destruct (find_target_Some _ _ _ _ _ Hfind) as (k & s & Hi & Hs & Hk & Hbefore).
  simpl in Hi. subst k.
  exists (take i signs), s, (drop (S i) signs).
  split; [symmetry; apply take_drop_middle; exact Hs|].
  split; [rewrite length_take; apply lookup_lt_Some in Hs; lia|].
  split; [|exact Hk].
  apply count_key_none. intros k s' Hs'.
  destruct (decide (k < i)) as [Hlt|Hge].
  - rewrite lookup_take_lt in Hs' by exact Hlt. eapply Hbefore; eassumption.
  - rewrite lookup_take_ge in Hs' by lia. discriminate.
Qed.

Lemma find_target_none_count lang email signs :
  find_target lang email signs 0 = None -> count_key lang email signs = 0.
Proof. intros H. apply count_key_none. eapply find_target_None. exact H. Qed.

(** X1: [upsert_sign] never removes an entry; it appends exactly one when
    no entry carries the key and keeps the length otherwise. *)
Theorem upsert_sign_length signs lang email text md :
  length (upsert_sign signs lang email text md)
  = match count_key lang email signs with
    | O => S (length signs)
    | S _ => length signs
    end.
Proof.
  destruct (find_target lang email signs 0) as [i|] eqn:Hfind.
  - rewrite (upsert_sign_hit _ _ _ _ _ _ Hfind), length_alter, clear_defaults_length.
    destruct (find_target_Some _ _ _ _ _ Hfind) as (k & s & _ & Hs & Hk & _).
    pose proof (count_key_some _ _ _ _ _ Hs Hk) as Hge.
    destruct (count_key lang email signs); [lia | reflexivity].
  - rewrite (upsert_sign_miss _ _ _ _ _ Hfind), length_app, clear_defaults_length.
    rewrite (find_target_none_count _ _ _ Hfind). simpl. lia.
Qed.

Lemma default_count_app lang l1 l2 :
  default_count lang (l1 ++ l2) = default_count lang l1 + default_count lang l2.
Proof. unfold default_count. rewrite List.filter_app, length_app. reflexivity. Qed.

Lemma default_count_cleared lang signs :
  default_count lang (clear_defaults true lang signs) = 0.
Proof.
  unfold default_count. induction signs as [|s rest IH]; [reflexivity|].
  simpl in *. unfold is_default_of at 1, clear_default.
  destruct (lang_is lang s) eqn:Hl.
  - unfold lang_is in *. simpl. rewrite Hl. simpl. exact IH.
  - rewrite Hl. simpl. exact IH.
Qed.

(** X2: after [upsert_sign] with [make_default = True] exactly one entry
    of language [lang] is marked as the default. *)
Theorem upsert_sign_single_default signs lang email text :
  default_count lang (upsert_sign signs lang email text true) = 1.
Proof.
  destruct (find_target lang email signs 0) as [i|] eqn:Hfind.
  - destruct (find_target_split _ _ _ _ Hfind) as (pre & s & post & -> & _ & H0 & Hk).
    rewrite (upsert_sign_middle _ _ _ _ _ _ _ H0 Hk).
    change (?x :: clear_defaults true lang post)
      with ([x] ++ clear_defaults true lang post).
    rewrite !default_count_app, !default_count_cleared.
    unfold default_count, is_default_of, lang_is. simpl.
    rewrite !bool_decide_eq_true_2 by reflexivity. reflexivity.
  - rewrite (upsert_sign_miss _ _ _ _ _ Hfind), default_count_app, default_count_cleared.
    unfold default_count, is_default_of, lang_is. simpl.
    rewrite !bool_decide_eq_true_2 by reflexivity. reflexivity.
Qed.

(** X3: a search of the result for the key just upserted succeeds, and the
    entry it finds carries the new text, the language, the default flag
    and the wanted addresses. *)
Theorem upsert_sign_then_find signs lang email text md :
  exists i s,
    find_target lang email (upsert_sign signs lang email text md) 0 = Some i
    /\ upsert_sign signs lang email text md !! i = Some s
    /\ s_text s = Some text /\ s_lang s = Some lang
    /\ s_isDefault s = Some md /\ cur_emails s = want_emails email.
Proof.
  destruct (find_target lang email signs 0) as [i|] eqn:Hfind.
  - destruct (find_target_split _ _ _ _ Hfind) as (pre & s & post & -> & _ & H0 & Hk).
    rewrite (upsert_sign_middle _ _ _ _ _ _ _ H0 Hk).
    pose proof (same_key_update lang email text md s Hk) as Hk'.
    exists (length (clear_defaults md lang pre)),
      (update (new_entry lang email text md) s).
    split; [apply find_target_middle;
            [rewrite count_key_clear_defaults; exact H0 | exact Hk']|].
    split; [apply list_lookup_middle; reflexivity|].
    apply same_key_true in Hk' as [_ He]. auto.
  - rewrite (upsert_sign_miss _ _ _ _ _ Hfind).
    exists (length (clear_defaults md lang signs)), (new_entry lang email text md).
    split; [apply find_target_middle;
            [rewrite count_key_clear_defaults; apply find_target_none_count; exact Hfind
            | apply same_key_new_entry]|].
    split; [apply list_lookup_middle; reflexivity|].
    repeat split. apply cur_emails_new_entry.
Qed.

Lemma same_key_same_fields lang email s s' :
  s_lang s' = s_lang s -> cur_emails s' = cur_emails s ->
  same_key lang email s' = same_key lang email s.
Proof. intros Hl He. unfold same_key, lang_is. rewrite Hl, He. reflexivity. Qed.

(** X4: [upsert_sign] for one key leaves the number of entries of every
    other key as it was. *)
Theorem upsert_sign_other_keys signs lang email text md lang' email' :
  lang' <> lang \/ want_emails email' <> want_emails email ->
  count_key lang' email' (upsert_sign signs lang email text md)
  = count_key lang' email' signs.
Proof.
  intros Hother.
  destruct (find_target lang email signs 0) as [i|] eqn:Hfind.
  - destruct (find_target_split _ _ _ _ Hfind) as (pre & s & post & -> & _ & H0 & Hk).
    rewrite (upsert_sign_middle _ _ _ _ _ _ _ H0 Hk).
    rewrite !count_key_app, !count_key_clear_defaults. f_equal.
    change (s :: post) with ([s] ++ post).
    change (?x :: clear_defaults md lang post)
      with ([x] ++ clear_defaults md lang post).
    rewrite !count_key_app, count_key_clear_defaults. f_equal.
    unfold count_key. simpl.
    rewrite (same_key_same_fields lang' email' s
               (update (new_entry lang email text md) s));
      [destruct (same_key lang' email' s); reflexivity | |].
    + apply same_key_true in Hk as [Hl _]. simpl. congruence.
    + pose proof (same_key_update lang email text md s Hk) as Hk'.
      apply same_key_true in Hk as [_ He], Hk' as [_ He']. congruence.
  - rewrite (upsert_sign_miss _ _ _ _ _ Hfind), count_key_app, count_key_clear_defaults.
    assert (same_key lang' email' (new_entry lang email text md) = false) as Hnew.
    { apply not_true_is_false. intros H. apply same_key_true in H as [Hl He].
      rewrite cur_emails_new_entry in He. simpl in Hl.
      destruct Hother as [Hne|Hne]; [apply Hne; congruence | apply Hne; congruence]. }
    unfold count_key at 2. simpl. rewrite Hnew. simpl. lia.
Qed.

Lemma upsert_sign_other_keys_witness :
  ("ru" <> "en" \/ want_emails None <> want_emails (Some "a@x.com"))
  /\ count_key "ru" None (upsert_sign three_signs "en" (Some "a@x.com") "Hi" true)
     = count_key "ru" None three_signs.
Proof.
  split; [left; discriminate|].
  apply (upsert_sign_other_keys three_signs "en" (Some "a@x.com") "Hi" true "ru" None).
  left; discriminate.
Defined.

(** X5: [upsert_sign] with [make_default = False] touches no entry but its
    target: every other entry of the input is found unchanged at its
    index, an entry marked as the default included. *)
Theorem upsert_sign_no_default_keeps_others signs lang email text i s :
  signs !! i = Some s ->
  find_target lang email signs 0 <> Some i ->
  upsert_sign signs lang email text false !! i = Some s.
Proof.
  intros Hs Hne.
  destruct (find_target lang email signs 0) as [t|] eqn:Hfind.
  - rewrite (upsert_sign_hit _ _ _ _ _ _ Hfind).
    rewrite list_lookup_alter_ne by congruence. exact Hs.
  - rewrite (upsert_sign_miss _ _ _ _ _ Hfind). simpl.
    apply lookup_app_l_Some. exact Hs.
Qed.

Lemma upsert_sign_no_default_keeps_others_witness :
  (three_signs !! 1 = Some sign_en_B
   /\ find_target "en" (Some "b@x.com") three_signs 0 <> Some 1)
  /\ upsert_sign three_signs "en" (Some "b@x.com") "Hi" false !! 1 = Some sign_en_B.
Proof.
  split; [split; [reflexivity | vm_compute; discriminate]|].
  apply (upsert_sign_no_default_keeps_others three_signs "en" (Some "b@x.com") "Hi"
           1 sign_en_B); [reflexivity | vm_compute; discriminate].
Defined.

(** ** [normalize_signature]: no line break is left, and once is enough *)

Lemma prefix_empty s : String.prefix "" s = true.
Proof. destruct s; reflexivity. Qed.

Lemma occurs_false_prefix pat s : occurs pat s = false -> String.prefix pat s = false.
Proof. destruct s; simpl; intros H; apply orb_false_iff in H as [H _]; exact H. Qed.

(** A string in which [old] does not occur is left as it is. *)
Lemma replace_absent old new s : occurs old s = false -> replace old new s = s.
Proof.
  unfold replace. induction s as [|c t IH]; intros H; [reflexivity|].
  pose proof (occurs_false_prefix _ _ H) as Hp.
  simpl in H. apply orb_false_iff in H as [_ Ht].
  cbn [replace_from]. rewrite Hp. f_equal. apply IH. exact Ht.
Qed.

Lemma replace_line_feed_cons c t :
  replace line_feed "<br>" (String c t)
  = if Ascii.eqb "010" c then ("<br>" ++ replace line_feed "<br>" t)%string
    else String c (replace line_feed "<br>" t).
Proof.
  unfold replace, line_feed. cbn [replace_from String.prefix].
  destruct (ascii_dec "010" c) as [<-|Hne].
  - rewrite prefix_empty. reflexivity.
  - apply Ascii.eqb_neq in Hne. rewrite Hne. reflexivity.
Qed.

Lemma prefix_backslash_n c t :
  String.prefix backslash_n (String c t)
  = Ascii.eqb "\" c && String.prefix "n" t.
Proof.
  unfold backslash_n. cbn [String.prefix].
  destruct (ascii_dec "\" c) as [<-|Hne].
  - destruct t as [|c' t']; [reflexivity|]. cbn [String.prefix].
    destruct (ascii_dec "n" c'); reflexivity.
  - apply Ascii.eqb_neq in Hne. rewrite Hne. reflexivity.
Qed.

Lemma replace_backslash_n_hit t :
  replace backslash_n "<br>" (String "\" (String "n" t))
  = ("<br>" ++ replace backslash_n "<br>" t)%string.
Proof.
  unfold replace, backslash_n. cbn [replace_from String.prefix String.length].
  destruct (ascii_dec "\" "\") as [_|Hne]; [|congruence].
  destruct (ascii_dec "n" "n") as [_|Hne]; [|congruence].
  rewrite prefix_empty. reflexivity.
Qed.

Lemma replace_backslash_n_miss c t :
  String.prefix backslash_n (String c t) = false ->
  replace backslash_n "<br>" (String c t)
  = String c (replace backslash_n "<br>" t).
Proof.
  intros H. unfold replace. cbn [replace_from]. rewrite H. reflexivity.
Qed.

Lemma occurs_br pat s :
  String.prefix pat ("<br>" ++ s) = false ->
  String.prefix pat ("br>" ++ s) = false ->
  String.prefix pat ("r>" ++ s) = false ->
  String.prefix pat (">" ++ s) = false ->
  occurs pat ("<br>" ++ s) = occurs pat s.
Proof.
  intros H1 H2 H3 H4. simpl in *. rewrite H1, H2, H3, H4. reflexivity.
Qed.

Lemma occurs_line_feed_br s :
  occurs line_feed ("<br>" ++ s) = occurs line_feed s.
Proof. apply occurs_br; reflexivity. Qed.

Lemma occurs_backslash_n_br s :
  occurs backslash_n ("<br>" ++ s) = occurs backslash_n s.
Proof. apply occurs_br; reflexivity. Qed.

(** After the replacement of line feeds none is left. *)
Lemma replace_line_feed_none s : occurs line_feed (replace line_feed "<br>" s) = false.
Proof.
  induction s as [|c t IH]; [reflexivity|].
  rewrite replace_line_feed_cons.
  destruct (Ascii.eqb "010" c) eqn:Hc.
  - rewrite occurs_line_feed_br. exact IH.
  - cbn [occurs]. rewrite IH, orb_false_r.
    unfold line_feed. cbn [String.prefix].
    destruct (ascii_dec "010" c) as [<-|_]; [|reflexivity].
    rewrite Ascii.eqb_refl in Hc. discriminate.
Qed.

Lemma prefix_n_replace_line_feed s :
  String.prefix "n" (replace line_feed "<br>" s) = String.prefix "n" s.
Proof.
  destruct s as [|c t]; [reflexivity|].
  rewrite replace_line_feed_cons.
  destruct (Ascii.eqb_spec "010" c) as [<-|Hne]; [reflexivity|].
  cbn [String.prefix]. destruct (ascii_dec "n" c); [|reflexivity].
  rewrite !prefix_empty. reflexivity.
Qed.

(** The replacement of line feeds creates no backslash-n. *)
Lemma replace_line_feed_keeps s :
  occurs backslash_n s = false ->
  occurs backslash_n (replace line_feed "<br>" s) = false.
Proof.
  induction s as [|c t IH]; intros H; [reflexivity|].
  pose proof (occurs_false_prefix _ _ H) as Hp.
  cbn [occurs] in H. apply orb_false_iff in H as [_ Ht].
  rewrite replace_line_feed_cons.
  destruct (Ascii.eqb "010" c).
  - rewrite occurs_backslash_n_br. apply IH. exact Ht.
  - cbn [occurs]. rewrite (IH Ht), orb_false_r.
    rewrite prefix_backslash_n in *. rewrite prefix_n_replace_line_feed. exact Hp.
Qed.

(** After the replacement of backslash-n none is left, and the result
    starts with [n] only if the argument does. *)
Lemma replace_backslash_n_none_upto n s :
  String.length s <= n ->
  occurs backslash_n (replace backslash_n "<br>" s) = false
  /\ (String.prefix "n" (replace backslash_n "<br>" s) = true ->
      String.prefix "n" s = true).
Proof.
  revert s. induction n as [|n IH]; intros s Hlen.
  - destruct s; [split; [reflexivity | discriminate] | simpl in Hlen; lia].
  - destruct s as [|c t]; [split; [reflexivity | discriminate]|].
    simpl in Hlen.
    destruct (String.prefix backslash_n (String c t)) eqn:Hp.
    + rewrite prefix_backslash_n in Hp. apply andb_true_iff in Hp as [Hc Ht].
      apply Ascii.eqb_eq in Hc. subst c.
      destruct t as [|c' t']; [discriminate|].
      cbn [String.prefix] in Ht.
      destruct (ascii_dec "n" c') as [<-|]; [|discriminate].
      rewrite replace_backslash_n_hit, occurs_backslash_n_br.
      split; [|discriminate].
      apply (IH t'). simpl in Hlen. lia.
    + rewrite (replace_backslash_n_miss _ _ Hp).
      destruct (IH t) as [Hnone Hhead]; [lia|].
      split.
      * cbn [occurs]. rewrite Hnone, orb_false_r.
        rewrite prefix_backslash_n in *.
        destruct (Ascii.eqb "\" c); [|reflexivity]. simpl in *.
        destruct (String.prefix "n" (replace backslash_n "<br>" t)); [|reflexivity].
        rewrite Hhead in Hp by reflexivity. discriminate.
      * cbn [String.prefix]. destruct (ascii_dec "n" c); [|discriminate].
        rewrite !prefix_empty. auto.
Qed.

Lemma replace_backslash_n_none s :
  occurs backslash_n (replace backslash_n "<br>" s) = false.
Proof. apply (replace_backslash_n_none_upto (String.length s) s). lia. Qed.

(** X6: with [convert_newlines] set the result of [normalize_signature]
    holds no line feed and no backslash-n, whatever the text. *)
Theorem normalize_signature_no_line_break text :
  occurs line_feed (normalize_signature text true) = false
  /\ occurs backslash_n (normalize_signature text true) = false.
Proof.
  unfold normalize_signature. split.
  - apply replace_line_feed_none.
  - apply replace_line_feed_keeps, replace_backslash_n_none.
Qed.

(** X7: [normalize_signature] applied to its own result changes nothing,
    and a text without line feed and backslash-n is returned as it is. *)
Theorem normalize_signature_idempotent text convert_newlines :
  normalize_signature (normalize_signature text convert_newlines) convert_newlines
  = normalize_signature text convert_newlines
  /\ (occurs line_feed text = false -> occurs backslash_n text = false ->
      normalize_signature text convert_newlines = text).
Proof.
  assert (forall t, occurs line_feed t = false -> occurs backslash_n t = false ->
                    normalize_signature t convert_newlines = t) as Hid.
  { intros t Hlf Hbn. unfold normalize_signature.
    destruct convert_newlines; [|reflexivity].
    fold backslash_n. fold line_feed.
    rewrite (replace_absent backslash_n "<br>" t Hbn).
    apply replace_absent. exact Hlf. }
  split; [|apply Hid].
  destruct convert_newlines; [|reflexivity].
  apply Hid.
  - apply replace_line_feed_none.
  - apply replace_line_feed_keeps, replace_backslash_n_none.
Qed.

Example normalize_signature_ex :
  normalize_signature ("Best,\nAnn" ++ line_feed ++ "Sales") true
  = "Best,<br>Ann<br>Sales".
Proof. reflexivity. Qed.

(** ** [backoff_request]: time spent waiting *)

Lemma backoff_wait_nonneg attempt : (0 <= backoff_wait attempt)%Q.
Proof.
  unfold backoff_wait. apply Q.min_glb; [discriminate|].
  apply Qmult_le_0_compat; [discriminate|].
  apply Qpower_0_le. discriminate.
Qed.

Lemma requests_transcript req attempts reps :
  requests (transcript req attempts reps)
  = replicate (Nat.min (length reps) (length attempts)) req.
Proof.
  revert attempts. induction reps as [|rep reps IH]; intros [|attempt attempts];
    simpl; try reflexivity.
  f_equal. unfold requests in *. rewrite omap_app, IH.
  destruct (calls_for_retry rep); reflexivity.
Qed.

Lemma total_cons x l : total (x :: l) = (x + total l)%Q.
Proof. reflexivity. Qed.

Lemma total_waits_nonneg attempts : (0 <= total (backoff_wait <$> attempts))%Q.
Proof.
  induction attempts as [|a attempts IH]; [discriminate|].
  rewrite fmap_cons, total_cons. pose proof (backoff_wait_nonneg a). lra.
Qed.

Lemma backoffs_transcript_total req attempts reps :
  (total (backoffs (transcript req attempts reps))
   <= total (backoff_wait <$> attempts))%Q
  /\ length (backoffs (transcript req attempts reps))
     <= length (requests (transcript req attempts reps)).
Proof.
  revert attempts. induction reps as [|rep reps IH]; intros attempts.
  - split; [apply total_waits_nonneg | simpl; lia].
  - destruct attempts as [|attempt attempts]; [split; [discriminate | simpl; lia]|].
    destruct (IH attempts) as [Htotal Hlen].
    pose proof (backoff_wait_nonneg attempt) as Hpos.
    cbn [transcript]. rewrite fmap_cons, total_cons.
    destruct (calls_for_retry rep).
    + change (backoffs (Sent req :: [Backoff (backoff_wait attempt)]
                        ++ transcript req attempts reps))
        with (backoff_wait attempt :: backoffs (transcript req attempts reps)).
      change (requests (Sent req :: [Backoff (backoff_wait attempt)]
                        ++ transcript req attempts reps))
        with (req :: requests (transcript req attempts reps)).
      rewrite total_cons. cbn [length]. split; [lra | lia].
    + change (backoffs (Sent req :: [] ++ transcript req attempts reps))
        with (backoffs (transcript req attempts reps)).
      change (requests (Sent req :: [] ++ transcript req attempts reps))
        with (req :: requests (transcript req attempts reps)).
      cbn [length]. split; [lra | lia].
Qed.

(** X8: one call of [backoff_request] sleeps for at most 31.5 seconds in
    all, and it never sleeps more often than it sends the request. *)
Theorem backoff_request_total_wait {Remote}
    (session : Remote -> Request -> Reply * Remote) method url data w :
  (total (backoffs (events_of (backoff_request session method url data w)))
   <= 63 # 2)%Q
  /\ length (backoffs (events_of (backoff_request session method url data w)))
     <= length (requests (events_of (backoff_request session method url data w)))
     <= 6.
Proof.
  destruct (backoff_request_events session method url data w) as (reps & Hlen & ->).
  destruct (backoffs_transcript_total (mkRequest method url data)
              [1; 2; 3; 4; 5; 6]%Z reps) as [Htotal Hle].
  split; [|split; [exact Hle|]].
  - eapply Qle_trans; [exact Htotal|]. apply Qle_bool_imp_le. reflexivity.
  - rewrite requests_transcript, length_replicate. simpl. lia.
Qed.

(** ** The address check of a row *)

(** [check_email] in terms of the result of the user lookup. *)
Lemma check_email_eq {Remote} (session : Remote -> Request -> Reply * Remote)
    args user_id csv_email w :
  nonempty csv_email = true ->
  check_email session args user_id csv_email w
  = match get_user session (org_id args) user_id w with
    | (Raise e, w1, ev1) => (Raise e, w1, ev1)
    | (Ok None, w1, ev1) =>
        if strict_email args
        then (Ok None, w1,
              ev1 ++ [Printed (FAIL_user_not_found user_id false); Pace (interval args)])
        else (Ok (Some None), w1, ev1 ++ [Printed (FAIL_user_not_found user_id true)])
    | (Ok (Some user), w1, ev1) =>
        if user_owns_email user csv_email then (Ok (Some (Some csv_email)), w1, ev1)
        else if strict_email args
        then (Ok None, w1,
              ev1 ++ [Printed (FAIL_not_owner user_id csv_email); Pace (interval args)])
        else (Ok (Some None), w1, ev1 ++ [Printed (WARN_not_owner user_id csv_email)])
    end.
Proof.
  intros Hne. unfold check_email, bind. rewrite Hne.
  destruct (get_user session (org_id args) user_id w) as [[[[user|]|e] w1] ev1];
    [destruct (user_owns_email user csv_email)| |];
    try destruct (strict_email args); simpl; rewrite ?app_nil_r; reflexivity.
Qed.

Lemma check_email_no_address {Remote} (session : Remote -> Request -> Reply * Remote)
    args user_id csv_email w :
  nonempty csv_email = false ->
  check_email session args user_id csv_email w = (Ok (Some None), w, []).
Proof. intros Hne. unfold check_email. rewrite Hne. reflexivity. Qed.

(** X9: the address check hands on an address to bind only when it is the
    non-empty address of the row and the user lookup returned a card that
    owns it. *)
Theorem check_email_binds_only_owned {Remote}
    (session : Remote -> Request -> Reply * Remote)
    args user_id csv_email w e w' ev :
  check_email session args user_id csv_email w = (Ok (Some (Some e)), w', ev) ->
  e = csv_email /\ csv_email <> ""
  /\ exists user,
       get_user session (org_id args) user_id w = (Ok (Some user), w', ev)
       /\ user_owns_email user csv_email = true.
Proof.
  intros H. destruct (nonempty csv_email) eqn:Hne;
    [|rewrite (check_email_no_address _ _ _ _ _ Hne) in H; discriminate].
  rewrite (check_email_eq _ _ _ _ _ Hne) in H.
  destruct (get_user session (org_id args) user_id w) as [[[[user|]|e0] w1] ev1];
    [destruct (user_owns_email user csv_email) eqn:Howns| |];
    try (destruct (strict_email args); discriminate); try discriminate.
  injection H as <- <- <-.
  split; [reflexivity|]. split; [apply nonempty_true; exact Hne|].
  exists user. auto.
Qed.

Lemma check_email_binds_only_owned_witness :
  check_email (scripted [200]%Z (Some (DocUser user_a))) args_replace "u1" "a@x.com" 0
  = (Ok (Some (Some "a@x.com")), 1, [Sent (mkRequest "GET" (user_url "org" "u1") None)])
  /\ exists user,
       get_user (scripted [200]%Z (Some (DocUser user_a))) "org" "u1" 0
       = (Ok (Some user), 1, [Sent (mkRequest "GET" (user_url "org" "u1") None)])
       /\ user_owns_email user "a@x.com" = true.
Proof.
  split; [reflexivity|].
  apply (check_email_binds_only_owned (scripted [200]%Z (Some (DocUser user_a)))
           args_replace "u1" "a@x.com" 0 "a@x.com" 1
           [Sent (mkRequest "GET" (user_url "org" "u1") None)]).
  reflexivity.
Defined.

(** ** The stages of a row in terms of the calls they make *)

Lemma process_row_eq {Remote} (session : Remote -> Request -> Reply * Remote)
    args idx row w :
  nonempty (strip (row_userId row)) = true ->
  nonempty (strip (row_signature row)) = true ->
  process_row session args idx row w
  = bind (check_email session args (strip (row_userId row)) (strip (row_email row)))
         (fun checked =>
            match checked with
            | None => ret tt
            | Some email_to_bind =>
                bind (build_body session args (strip (row_userId row))
                        (lang_of args row) email_to_bind (text_of args row))
                     (fun built =>
                        match built with
                        | None => ret tt
                        | Some body =>
                            bind (submit session args (strip (row_userId row)) body)
                                 (fun _ => emit (Pace (interval args)))
                        end)
            end) w.
Proof.
  intros Hu Ht. unfold process_row, lang_of, text_of. rewrite Hu, Ht. reflexivity.
Qed.

Lemma process_row_skip {Remote} (session : Remote -> Request -> Reply * Remote)
    args idx row w :
  negb (nonempty (strip (row_userId row)))
  || negb (nonempty (strip (row_signature row))) = true ->
  process_row session args idx row w = (Ok tt, w, [Printed (SKIP idx)]).
Proof. intros H. unfold process_row. rewrite H. reflexivity. Qed.

(** [build_body] in merge mode in terms of the result of the settings fetch. *)
Lemma build_body_eq {Remote} (session : Remote -> Request -> Reply * Remote)
    args user_id lang email_to_bind text_norm w :
  merge args = true ->
  build_body session args user_id lang email_to_bind text_norm w
  = match get_sender_info session (org_id args) user_id w with
    | (Ok current, w1, ev1) =>
        (Ok (Some (mkBody (upsert_sign (default [] (si_signs current)) lang
                                       email_to_bind text_norm true)
                          (or_str (si_signPosition current) (position args)))),
         w1, ev1)
    | (Raise (HTTPError status), w1, ev1) =>
        (Ok None, w1,
         ev1 ++ [Printed (FAIL_get user_id (HTTPError status)); Pace (interval args)])
    | (Raise e, w1, ev1) => (Raise e, w1, ev1)
    end.
Proof.
  intros Hmerge. unfold build_body, try_except_HTTPError, bind. rewrite Hmerge.
  destruct (get_sender_info session (org_id args) user_id w) as [[[current|e] w1] ev1].
  - simpl. rewrite !app_nil_r. reflexivity.
  - destruct e; simpl; rewrite ?app_nil_r; reflexivity.
Qed.

Lemma build_body_replace {Remote} (session : Remote -> Request -> Reply * Remote)
    args user_id lang email_to_bind text_norm w :
  merge args = false ->
  build_body session args user_id lang email_to_bind text_norm w
  = (Ok (Some (mkBody [mkSign (Some text_norm) (Some lang) (Some true)
                              (bound_emails email_to_bind) []]
                      (position args))), w, []).
Proof. intros Hmerge. unfold build_body. rewrite Hmerge. reflexivity. Qed.

(** [submit] in terms of the result of the post. *)
Lemma submit_eq {Remote} (session : Remote -> Request -> Reply * Remote)
    args user_id body w :
  submit session args user_id body w
  = if dry_run args then (Ok tt, w, [Printed (DRY user_id body)])
    else match post_sender_info session (org_id args) user_id body w with
         | (Ok resp, w1, ev1) =>
             (Ok tt, w1,
              ev1 ++ [Printed (if (status_code resp =? 200)%Z then OK user_id
                               else FAIL_post user_id (status_code resp) (text resp))])
         | (Raise e, w1, ev1) => (Raise e, w1, ev1)
         end.
Proof.
  unfold submit, bind. destruct (dry_run args); [reflexivity|].
  destruct (post_sender_info session (org_id args) user_id body w)
    as [[[resp|e] w1] ev1]; [|reflexivity].
  destruct (status_code resp =? 200)%Z; reflexivity.
Qed.

Lemma requests_app ev1 ev2 : requests (ev1 ++ ev2) = requests ev1 ++ requests ev2.
Proof. apply omap_app. Qed.

Lemma backoff_request_requests {Remote} (session : Remote -> Request -> Reply * Remote)
    method url data w :
  exists n,
    1 <= n <= 6
    /\ requests (events_of (backoff_request session method url data w))
       = replicate n (mkRequest method url data).
Proof.
  destruct (backoff_request_events session method url data w) as (reps & Hlen & ->).
  exists (length reps). split; [exact Hlen|].
  rewrite requests_transcript. f_equal. simpl. lia.
Qed.

Lemma check_email_requests {Remote} (session : Remote -> Request -> Reply * Remote)
    args user_id csv_email w :
  exists n,
    n <= 6
    /\ requests (events_of (check_email session args user_id csv_email w))
       = replicate n (lookup_request args user_id).
Proof.
  destruct (nonempty csv_email) eqn:Hne;
    [|rewrite (check_email_no_address _ _ _ _ _ Hne); exists 0; split; [lia | reflexivity]].
  rewrite (check_email_eq _ _ _ _ _ Hne).
  destruct (backoff_request_requests session "GET" (user_url (org_id args) user_id)
              None w) as (n & Hn & Hreq).
  rewrite <- get_user_events in Hreq. exists n. split; [lia|].
  destruct (get_user session (org_id args) user_id w) as [[[[user|]|e] w1] ev1];
    unfold events_of in *; simpl in Hreq;
    [destruct (user_owns_email user csv_email)| |];
    try destruct (strict_email args); simpl;
    rewrite ?requests_app, Hreq; simpl; rewrite ?app_nil_r; reflexivity.
Qed.

Lemma build_body_requests {Remote} (session : Remote -> Request -> Reply * Remote)
    args user_id lang email_to_bind text_norm w :
  exists n,
    n <= 6
    /\ requests (events_of (build_body session args user_id lang email_to_bind
                              text_norm w))
       = replicate n (fetch_request args user_id).
Proof.
  destruct (merge args) eqn:Hmerge;
    [|rewrite (build_body_replace _ _ _ _ _ _ _ Hmerge); exists 0;
      split; [lia | reflexivity]].
  rewrite (build_body_eq _ _ _ _ _ _ _ Hmerge).
  destruct (backoff_request_requests session "GET"
              (sender_info_url (org_id args) user_id) None w) as (n & Hn & Hreq).
  rewrite <- get_sender_info_events in Hreq. exists n. split; [lia|].
  destruct (get_sender_info session (org_id args) user_id w) as [[[current|e] w1] ev1];
    unfold events_of in *; simpl in Hreq; [exact Hreq|].
  destruct e; simpl; rewrite ?requests_app, Hreq; simpl; rewrite ?app_nil_r;
    reflexivity.
Qed.

Lemma submit_requests {Remote} (session : Remote -> Request -> Reply * Remote)
    args user_id body w :
  exists n,
    n <= 6 /\ (dry_run args = true -> n = 0)
    /\ requests (events_of (submit session args user_id body w))
       = replicate n (post_request args user_id body).
Proof.
  rewrite submit_eq. destruct (dry_run args);
    [exists 0; repeat split; lia|].
  destruct (backoff_request_requests session "POST"
              (sender_info_url (org_id args) user_id) (Some body) w)
    as (n & Hn & Hreq).
  exists n. split; [lia|]. split; [discriminate|].
  unfold post_sender_info.
  destruct (backoff_request session "POST" (sender_info_url (org_id args) user_id)
              (Some body) w) as [[[resp|e] w1] ev1];
    unfold events_of in *; simpl in Hreq; simpl;
    rewrite ?requests_app, Hreq; simpl; rewrite ?app_nil_r; reflexivity.
Qed.

Lemma events_bind {Remote A B} (m : M Remote A) (k : A -> M Remote B) w :
  events_of (bind m k w)
  = events_of (m w)
    ++ match m w with
       | (Ok a, w1, _) => events_of (k a w1)
       | (Raise _, _, _) => []
       end.
Proof.
  unfold bind, events_of. destruct (m w) as [[[a|e] w1] ev1]; simpl.
  - destruct (k a w1) as [[r w2] ev2]. reflexivity.
  - rewrite app_nil_r. reflexivity.
Qed.

(** The requests of a row, in order: lookups of the user card, fetches of
    the settings, posts of one body; at most six of each, and no post in
    a dry run. *)
Lemma process_row_requests_shape {Remote}
    (session : Remote -> Request -> Reply * Remote) args idx row w :
  exists n1 n2 n3 body,
    n1 <= 6 /\ n2 <= 6 /\ n3 <= 6 /\ (dry_run args = true -> n3 = 0)
    /\ requests (events_of (process_row session args idx row w))
       = replicate n1 (lookup_request args (strip (row_userId row)))
         ++ replicate n2 (fetch_request args (strip (row_userId row)))
         ++ replicate n3 (post_request args (strip (row_userId row)) body).
Proof.
  destruct (negb (nonempty (strip (row_userId row)))
            || negb (nonempty (strip (row_signature row)))) eqn:Hskip.
  - rewrite (process_row_skip _ _ _ _ _ Hskip).
    exists 0, 0, 0, (mkBody [] ""). repeat split; lia.
  - apply orb_false_iff in Hskip as [Hu Ht]. apply negb_false_iff in Hu, Ht.
    rewrite (process_row_eq _ _ _ _ _ Hu Ht), events_bind.
    destruct (check_email_requests session args (strip (row_userId row))
                (strip (row_email row)) w) as (n1 & Hn1 & Hreq1).
    rewrite requests_app, Hreq1.
    destruct (check_email session args (strip (row_userId row))
                (strip (row_email row)) w) as [[[[email_to_bind|]|e] w1] ev1];
      try (exists n1, 0, 0, (mkBody [] ""); repeat split; simpl; lia).
    rewrite events_bind.
    destruct (build_body_requests session args (strip (row_userId row))
                (lang_of args row) email_to_bind (text_of args row) w1)
      as (n2 & Hn2 & Hreq2).
    rewrite requests_app, Hreq2.
    destruct (build_body session args (strip (row_userId row)) (lang_of args row)
                email_to_bind (text_of args row) w1) as [[[[body|]|e] w2] ev2];
      try (exists n1, n2, 0, (mkBody [] ""); repeat split; simpl; lia).
    rewrite events_bind.
    destruct (submit_requests session args (strip (row_userId row)) body w2)
      as (n3 & Hn3 & Hdry & Hreq3).
    rewrite requests_app, Hreq3.
    exists n1, n2, n3, body. repeat split; try assumption.
    destruct (submit session args (strip (row_userId row)) body w2)
      as [[[u|e] w3] ev3]; simpl; rewrite ?app_nil_r; reflexivity.
Qed.

Lemma posted_requests ev : posted ev = omap posted_body (requests ev).
Proof.
  induction ev as [|e ev IH]; [reflexivity|].
  change (e :: ev) with ([e] ++ ev).
  rewrite posted_app, requests_app, omap_app, IH. f_equal.
  destruct e as [[m u d]| | |]; reflexivity.
Qed.

Lemma posted_replicate_get n url :
  omap posted_body (replicate n (mkRequest "GET" url None)) = [].
Proof. induction n as [|n IH]; [reflexivity | exact IH]. Qed.

Lemma posted_replicate_post n url body :
  omap posted_body (replicate n (mkRequest "POST" url (Some body))) = replicate n body.
Proof. induction n as [|n IH]; [reflexivity|]. simpl. f_equal. exact IH. Qed.

(** ** Rows: strict and lenient address check *)

(** X10: with [--strict-email], a row whose address is not verified (the
    user is not found, or the card does not own the address) is closed at
    once with a FAIL line and the pacing sleep: no settings are fetched and
    nothing is posted. *)
Theorem strict_email_fails_row {Remote} (session : Remote -> Request -> Reply * Remote)
    args idx row found w w1 ev1 :
  strict_email args = true ->
  nonempty (strip (row_userId row)) = true ->
  nonempty (strip (row_signature row)) = true ->
  nonempty (strip (row_email row)) = true ->
  get_user session (org_id args) (strip (row_userId row)) w = (Ok found, w1, ev1) ->
  match found with
  | Some user => user_owns_email user (strip (row_email row)) = false
  | None => True
  end ->
  process_row session args idx row w
  = (Ok tt, w1,
     ev1 ++ [Printed (match found with
                      | Some _ => FAIL_not_owner (strip (row_userId row))
                                                 (strip (row_email row))
                      | None => FAIL_user_not_found (strip (row_userId row)) false
                      end);
             Pace (interval args)])
  /\ requests ev1 <> []
  /\ Forall (eq (lookup_request args (strip (row_userId row)))) (requests ev1).
Proof.
  intros Hstrict Hu Ht He Hget Hnot. split.
  - rewrite (process_row_eq _ _ _ _ _ Hu Ht). unfold bind.
    rewrite (check_email_eq _ _ _ _ _ He), Hget, Hstrict.
    destruct found as [user|]; [rewrite Hnot|]; simpl; rewrite app_nil_r; reflexivity.
  - destruct (backoff_request_requests session "GET"
                (user_url (org_id args) (strip (row_userId row))) None w)
      as (n & Hn & Hreq).
    rewrite <- get_user_events, Hget in Hreq. unfold events_of in Hreq. simpl in Hreq.
    rewrite Hreq. split.
    + destruct n; [lia | discriminate].
    + apply Forall_replicate. reflexivity.
Qed.

Lemma strict_email_fails_row_witness :
  (get_user (scripted [404]%Z None) "org" "u1" 0
   = (Ok None, 1, [Sent (mkRequest "GET" (user_url "org" "u1") None)]))
  /\ process_row (scripted [404]%Z None)
       (mkArgs "org" "bottom" "ru" false false 4 false true) 1 row_en 0
     = (Ok tt, 1,
        [Sent (mkRequest "GET" (user_url "org" "u1") None);
         Printed (FAIL_user_not_found "u1" false);
         Pace (interval (mkArgs "org" "bottom" "ru" false false 4 false true))]).
Proof.
  split; [reflexivity|].
  apply (strict_email_fails_row (scripted [404]%Z None)
           (mkArgs "org" "bottom" "ru" false false 4 false true) 1 row_en None 0 1
           [Sent (mkRequest "GET" (user_url "org" "u1") None)]);
    first [reflexivity | exact I].
Defined.

Lemma posted_check_email {Remote} (session : Remote -> Request -> Reply * Remote)
    args user_id csv_email w :
  posted (events_of (check_email session args user_id csv_email w)) = [].
Proof.
  destruct (check_email_requests session args user_id csv_email w) as (n & _ & Hreq).
  rewrite posted_requests, Hreq. apply posted_replicate_get.
Qed.

Lemma posted_build_body {Remote} (session : Remote -> Request -> Reply * Remote)
    args user_id lang email_to_bind text_norm w :
  posted (events_of (build_body session args user_id lang email_to_bind text_norm w))
  = [].
Proof.
  destruct (build_body_requests session args user_id lang email_to_bind text_norm w)
    as (n & _ & Hreq).
  rewrite posted_requests, Hreq. apply posted_replicate_get.
Qed.

Lemma posted_submit {Remote} (session : Remote -> Request -> Reply * Remote)
    args user_id body w :
  exists n,
    (if dry_run args then n = 0 else 1 <= n <= 6)
    /\ posted (events_of (submit session args user_id body w)) = replicate n body.
Proof.
  rewrite submit_eq. destruct (dry_run args); [exists 0; split; reflexivity|].
  destruct (backoff_request_requests session "POST"
              (sender_info_url (org_id args) user_id) (Some body) w)
    as (n & Hn & Hreq).
  exists n. split; [exact Hn|]. unfold post_sender_info.
  destruct (backoff_request session "POST" (sender_info_url (org_id args) user_id)
              (Some body) w) as [[[resp|e] w1] ev1];
    unfold events_of in *; simpl in Hreq; simpl;
    rewrite posted_requests, ?requests_app, Hreq; simpl; rewrite ?app_nil_r;
    apply posted_replicate_post.
Qed.

(** What a row posts once the address check and the body are settled. *)
Lemma process_row_posted {Remote} (session : Remote -> Request -> Reply * Remote)
    args idx row email_to_bind body w w0 ev0 w1 ev1 :
  nonempty (strip (row_userId row)) = true ->
  nonempty (strip (row_signature row)) = true ->
  check_email session args (strip (row_userId row)) (strip (row_email row)) w
  = (Ok (Some email_to_bind), w0, ev0) ->
  build_body session args (strip (row_userId row)) (lang_of args row) email_to_bind
    (text_of args row) w0 = (Ok (Some body), w1, ev1) ->
  exists n,
    (if dry_run args then n = 0 else 1 <= n <= 6)
    /\ posted (events_of (process_row session args idx row w)) = replicate n body.
Proof.
  intros Hu Ht Hcheck Hbuild.
  pose proof (posted_check_email session args (strip (row_userId row))
                (strip (row_email row)) w) as Hp0.
  pose proof (posted_build_body session args (strip (row_userId row)) (lang_of args row)
                email_to_bind (text_of args row) w0) as Hp1.
  rewrite Hcheck in Hp0. rewrite Hbuild in Hp1. unfold events_of in Hp0, Hp1.
  simpl in Hp0, Hp1.
  rewrite (process_row_eq _ _ _ _ _ Hu Ht), events_bind, Hcheck, events_bind, Hbuild,
    events_bind.
  destruct (posted_submit session args (strip (row_userId row)) body w1)
    as (n & Hn & Hposted).
  exists n. split; [exact Hn|].
  unfold events_of at 1 2. simpl. rewrite !posted_app, Hp0, Hp1, Hposted. simpl.
  destruct (submit session args (strip (row_userId row)) body w1) as [[[u|e] w2] ev2];
    simpl; rewrite app_nil_r; reflexivity.
Qed.

(** X11: without [--strict-email], in replace mode, a row whose address
    is not verified goes on and posts its record without [emails]. *)
Theorem lenient_email_drops_binding {Remote}
    (session : Remote -> Request -> Reply * Remote)
    args idx row found w w1 ev1 :
  strict_email args = false -> merge args = false -> dry_run args = false ->
  nonempty (strip (row_userId row)) = true ->
  nonempty (strip (row_signature row)) = true ->
  nonempty (strip (row_email row)) = true ->
  get_user session (org_id args) (strip (row_userId row)) w = (Ok found, w1, ev1) ->
  match found with
  | Some user => user_owns_email user (strip (row_email row)) = false
  | None => True
  end ->
  exists n,
    1 <= n <= 6
    /\ posted (events_of (process_row session args idx row w))
       = replicate n (replace_body args row None).
Proof.
  intros Hstrict Hmerge Hdry Hu Ht He Hget Hnot.
  assert (exists ev0,
            check_email session args (strip (row_userId row)) (strip (row_email row)) w
            = (Ok (Some None), w1, ev0)) as (ev0 & Hcheck).
  { rewrite (check_email_eq _ _ _ _ _ He), Hget, Hstrict.
    destruct found as [user|]; [rewrite Hnot|]; eauto. }
  destruct (process_row_posted session args idx row None (replace_body args row None)
              w w1 ev0 w1 [] Hu Ht Hcheck) as (n & Hn & Hposted).
  { apply build_body_replace. exact Hmerge. }
  rewrite Hdry in Hn. eauto.
Qed.

Lemma lenient_email_drops_binding_witness :
  (get_user (scripted [404; 200]%Z None) "org" "u1" 0
   = (Ok None, 1, [Sent (mkRequest "GET" (user_url "org" "u1") None)]))
  /\ exists n,
       1 <= n <= 6
       /\ posted (events_of (process_row (scripted [404; 200]%Z None) args_replace 1
                               row_en 0))
          = replicate n (replace_body args_replace row_en None).
Proof.
  split; [reflexivity|].
  apply (lenient_email_drops_binding (scripted [404; 200]%Z None) args_replace 1 row_en
           None 0 1 [Sent (mkRequest "GET" (user_url "org" "u1") None)]);
    first [reflexivity | exact I].
Defined.

(** ** Rows: what is sent *)

Lemma posted_process_row_dry {Remote} (session : Remote -> Request -> Reply * Remote)
    args idx row w :
  dry_run args = true ->
  posted (events_of (process_row session args idx row w)) = [].
Proof.
  intros Hdry.
  destruct (process_row_requests_shape session args idx row w)
    as (n1 & n2 & n3 & body & _ & _ & _ & Hn3 & Hreq).
  rewrite posted_requests, Hreq, (Hn3 Hdry), !omap_app.
  unfold lookup_request, fetch_request. rewrite !posted_replicate_get. reflexivity.
Qed.

(** X12: with [--dry-run] the run posts nothing, whatever the rows and the
    answers of the remote side. *)
Theorem dry_run_never_posts {Remote} (session : Remote -> Request -> Reply * Remote)
    args idx rows w :
  dry_run args = true ->
  posted (events_of (main_loop session args idx rows w)) = [].
Proof.
  intros Hdry. revert idx w. induction rows as [|row rest IH]; intros idx w;
    [reflexivity|].
  simpl. rewrite events_bind, posted_app, (posted_process_row_dry _ _ _ _ _ Hdry).
  destruct (process_row session args idx row w) as [[[u|e] w1] ev1];
    [apply IH | reflexivity].
Qed.

Lemma dry_run_never_posts_witness :
  dry_run args_dry = true
  /\ posted (events_of (main_loop (scripted [200]%Z (Some (DocUser user_a))) args_dry 1
                          [row_en; row_plain] 0)) = [].
Proof.
  split; [reflexivity|].
  apply (dry_run_never_posts (scripted [200]%Z (Some (DocUser user_a))) args_dry 1
           [row_en; row_plain] 0).
  reflexivity.
Defined.

(** X13: every request of a row is for the user of that row: a lookup of
    the user card, a fetch of the settings or a post of settings, with the
    trimmed [userId] of the row in its address. *)
Theorem process_row_requests_own_user {Remote}
    (session : Remote -> Request -> Reply * Remote) args idx row w :
  Forall (fun req =>
            req = lookup_request args (strip (row_userId row))
            \/ req = fetch_request args (strip (row_userId row))
            \/ exists body, req = post_request args (strip (row_userId row)) body)
         (requests (events_of (process_row session args idx row w))).
Proof.
  destruct (process_row_requests_shape session args idx row w)
    as (n1 & n2 & n3 & body & _ & _ & _ & _ & ->).
  rewrite !Forall_app. repeat split; apply Forall_replicate; eauto.
Qed.

Lemma process_row_requests_length {Remote}
    (session : Remote -> Request -> Reply * Remote) args idx row w :
  length (requests (events_of (process_row session args idx row w))) <= 18.
Proof.
  destruct (process_row_requests_shape session args idx row w)
    as (n1 & n2 & n3 & body & Hn1 & Hn2 & Hn3 & _ & ->).
  rewrite !length_app, !length_replicate. lia.
Qed.

(** X14: a run sends at most eighteen requests per row: at most six
    attempts for each of the lookup, the fetch and the post. *)
Theorem main_loop_request_bound {Remote} (session : Remote -> Request -> Reply * Remote)
    args idx rows w :
  length (requests (events_of (main_loop session args idx rows w)))
  <= 18 * length rows.
Proof.
  revert idx w. induction rows as [|row rest IH]; intros idx w; [simpl; lia|].
  cbn [main_loop]. rewrite events_bind, requests_app, length_app.
  pose proof (process_row_requests_length session args idx row w) as Hrow.
  destruct (process_row session args idx row w) as [[[u|e] w1] ev1].
  - specialize (IH (S idx) w1). unfold events_of in *. simpl in *. lia.
  - unfold events_of in *. simpl in *. lia.
Qed.

Lemma check_email_address {Remote} (session : Remote -> Request -> Reply * Remote)
    args user_id csv_email w e w' ev :
  check_email session args user_id csv_email w = (Ok (Some e), w', ev) ->
  e = None \/ e = Some csv_email.
Proof.
  intros H. destruct (nonempty csv_email) eqn:Hne;
    [|rewrite (check_email_no_address _ _ _ _ _ Hne) in H; injection H as <- _ _; auto].
  rewrite (check_email_eq _ _ _ _ _ Hne) in H.
  destruct (get_user session (org_id args) user_id w) as [[[[user|]|e0] w1] ev1];
    [destruct (user_owns_email user csv_email)| |];
    try destruct (strict_email args); try discriminate;
    injection H as <- _ _; auto.
Qed.

(** X15: in replace mode every body a row posts is a list of one record,
    marked as the default, with the trimmed (and converted) signature, the
    language of the row and the configured position; the record is bound to
    the trimmed address of the row or to none, and nothing of the remote
    settings enters it. *)
Theorem replace_mode_body {Remote} (session : Remote -> Request -> Reply * Remote)
    args idx row w :
  merge args = false ->
  Forall (fun body =>
            body = replace_body args row None
            \/ body = replace_body args row (Some (strip (row_email row))))
         (posted (events_of (process_row session args idx row w))).
Proof.
  intros Hmerge.
  destruct (negb (nonempty (strip (row_userId row)))
            || negb (nonempty (strip (row_signature row)))) eqn:Hskip.
  - rewrite (process_row_skip _ _ _ _ _ Hskip). constructor.
  - apply orb_false_iff in Hskip as [Hu Ht]. apply negb_false_iff in Hu, Ht.
    pose proof (posted_check_email session args (strip (row_userId row))
                  (strip (row_email row)) w) as Hp0.
    destruct (check_email session args (strip (row_userId row))
                (strip (row_email row)) w) as [[[[e|]|exn] w0] ev0] eqn:Hcheck.
    + destruct (process_row_posted session args idx row e (replace_body args row e)
                  w w0 ev0 w0 [] Hu Ht Hcheck) as (n & _ & ->).
      { apply build_body_replace. exact Hmerge. }
      apply Forall_replicate.
      destruct (check_email_address _ _ _ _ _ _ _ _ Hcheck) as [-> | ->]; auto.
    + rewrite (process_row_eq _ _ _ _ _ Hu Ht), events_bind, Hcheck. simpl.
      rewrite app_nil_r. unfold events_of in Hp0. simpl in Hp0. rewrite Hp0.
      constructor.
    + rewrite (process_row_eq _ _ _ _ _ Hu Ht), events_bind, Hcheck. simpl.
      rewrite app_nil_r. unfold events_of in Hp0. simpl in Hp0. rewrite Hp0.
      constructor.
Qed.

Lemma replace_mode_body_witness :
  merge args_replace = false
  /\ Forall (fun body =>
               body = replace_body args_replace row_en None
               \/ body = replace_body args_replace row_en (Some (strip (row_email row_en))))
            (posted (events_of (process_row (scripted [200; 200]%Z (Some (DocUser user_a)))
                                  args_replace 1 row_en 0))).
Proof.
  split; [reflexivity|].
  apply (replace_mode_body (scripted [200; 200]%Z (Some (DocUser user_a)))
           args_replace 1 row_en 0).
  reflexivity.
Defined.

(** ** Rows: error statuses of the two GET calls *)

Lemma get_sender_info_error {Remote} (session : Remote -> Request -> Reply * Remote)
    org_id user_id w r w1 ev1 :
  backoff_request session "GET" (sender_info_url org_id user_id) None w
  = (Ok r, w1, ev1) ->
  (400 <= status_code r < 600)%Z -> status_code r <> 404%Z ->
  get_sender_info session org_id user_id w = (Raise (HTTPError (status_code r)), w1, ev1).
Proof.
  intros Hback Herr Hne. unfold get_sender_info. rewrite (bind_ok _ _ _ _ _ _ Hback).
  destruct (Z.eqb_spec (status_code r) 404) as [Heq|_]; [contradiction|].
  cbv beta iota.
  rewrite (bind_raise (raise_for_status r) _ w1 _ w1 []
             (raise_for_status_error r w1 Herr)).
  rewrite app_nil_r. reflexivity.
Qed.

Lemma get_user_error {Remote} (session : Remote -> Request -> Reply * Remote)
    org_id user_id w r w1 ev1 :
  backoff_request session "GET" (user_url org_id user_id) None w = (Ok r, w1, ev1) ->
  (400 <= status_code r < 600)%Z -> status_code r <> 404%Z ->
  get_user session org_id user_id w = (Raise (HTTPError (status_code r)), w1, ev1).
Proof.
  intros Hback Herr Hne. unfold get_user. rewrite (bind_ok _ _ _ _ _ _ Hback).
  destruct (Z.eqb_spec (status_code r) 404) as [Heq|_]; [contradiction|].
  cbv beta iota.
  rewrite (bind_raise (raise_for_status r) _ w1 _ w1 []
             (raise_for_status_error r w1 Herr)).
  rewrite app_nil_r. reflexivity.
Qed.

(** X16: in merge mode, when the settings fetch ends with an error status
    other than 404 (a retriable status after six attempts included), the
    row is closed with a FAIL line and the pacing sleep, nothing is posted,
    and the run goes on. *)
Theorem merge_fetch_error_fails_row {Remote}
    (session : Remote -> Request -> Reply * Remote)
    args idx row email_to_bind w w0 ev0 r w1 ev1 :
  merge args = true ->
  nonempty (strip (row_userId row)) = true ->
  nonempty (strip (row_signature row)) = true ->
  check_email session args (strip (row_userId row)) (strip (row_email row)) w
  = (Ok (Some email_to_bind), w0, ev0) ->
  backoff_request session "GET"
    (sender_info_url (org_id args) (strip (row_userId row))) None w0
  = (Ok r, w1, ev1) ->
  (400 <= status_code r < 600)%Z -> status_code r <> 404%Z ->
  process_row session args idx row w
  = (Ok tt, w1,
     ev0 ++ ev1
     ++ [Printed (FAIL_get (strip (row_userId row)) (HTTPError (status_code r)));
         Pace (interval args)])
  /\ posted (events_of (process_row session args idx row w)) = [].
Proof.
  intros Hmerge Hu Ht Hcheck Hback Herr Hne.
  pose proof (get_sender_info_error _ _ _ _ _ _ _ Hback Herr Hne) as Hinfo.
  assert (process_row session args idx row w
          = (Ok tt, w1,
             ev0 ++ ev1
             ++ [Printed (FAIL_get (strip (row_userId row)) (HTTPError (status_code r)));
                 Pace (interval args)])) as Hrun.
  { rewrite (process_row_eq _ _ _ _ _ Hu Ht), (bind_ok _ _ _ _ _ _ Hcheck).
    unfold bind. rewrite (build_body_eq _ _ _ _ _ _ _ Hmerge), Hinfo. simpl.
    rewrite app_nil_r. reflexivity. }
  split; [exact Hrun|].
  pose proof (posted_check_email session args (strip (row_userId row))
                (strip (row_email row)) w) as Hp0.
  rewrite Hcheck in Hp0. unfold events_of in Hp0. simpl in Hp0.
  destruct (backoff_request_requests session "GET"
              (sender_info_url (org_id args) (strip (row_userId row))) None w0)
    as (n & _ & Hreq).
  rewrite Hback in Hreq. unfold events_of in Hreq. simpl in Hreq.
  rewrite Hrun. unfold events_of. simpl.
  rewrite !posted_app, Hp0, (posted_requests ev1), Hreq, posted_replicate_get.
  reflexivity.
Qed.

Lemma merge_fetch_error_fails_row_witness :
  (backoff_request (scripted [403]%Z None) "GET" (sender_info_url "org" "u2") None 0
   = (Ok (mkResponse 403 "" None), 1,
      [Sent (mkRequest "GET" (sender_info_url "org" "u2") None)]))
  /\ process_row (scripted [403]%Z None) args_merge 1 row_plain 0
     = (Ok tt, 1,
        [Sent (mkRequest "GET" (sender_info_url "org" "u2") None);
         Printed (FAIL_get "u2" (HTTPError 403));
         Pace (interval args_merge)]).
Proof.
  split; [reflexivity|].
  apply (merge_fetch_error_fails_row (scripted [403]%Z None) args_merge 1 row_plain
           None 0 0 [] (mkResponse 403 "" None) 1
           [Sent (mkRequest "GET" (sender_info_url "org" "u2") None)]);
    first [reflexivity | discriminate | (simpl; lia)].
Defined.

(** X17: when the lookup of the user card ends with an error status other
    than 404, the [HTTPError] leaves the row and the loop: the run ends
    there, with no outcome line and no sleep for the row, and the rows
    after it are not processed. *)
Theorem user_lookup_error_ends_run {Remote}
    (session : Remote -> Request -> Reply * Remote)
    args idx row rest w r w1 ev1 :
  nonempty (strip (row_userId row)) = true ->
  nonempty (strip (row_signature row)) = true ->
  nonempty (strip (row_email row)) = true ->
  backoff_request session "GET" (user_url (org_id args) (strip (row_userId row))) None w
  = (Ok r, w1, ev1) ->
  (400 <= status_code r < 600)%Z -> status_code r <> 404%Z ->
  main_loop session args idx (row :: rest) w
  = (Raise (HTTPError (status_code r)), w1, ev1).
Proof.
  intros Hu Ht He Hback Herr Hne.
  pose proof (get_user_error _ _ _ _ _ _ _ Hback Herr Hne) as Hget.
  cbn [main_loop]. apply bind_raise.
  rewrite (process_row_eq _ _ _ _ _ Hu Ht). apply bind_raise.
  rewrite (check_email_eq _ _ _ _ _ He), Hget. reflexivity.
Qed.

Lemma user_lookup_error_ends_run_witness :
  (backoff_request (scripted [500; 403]%Z None) "GET" (user_url "org" "u1") None 0
   = (Ok (mkResponse 403 "" None), 2,
      [Sent (mkRequest "GET" (user_url "org" "u1") None); Backoff (backoff_wait 1);
       Sent (mkRequest "GET" (user_url "org" "u1") None)]))
  /\ main_loop (scripted [500; 403]%Z None) args_replace 1 [row_en; row_plain] 0
     = (Raise (HTTPError 403), 2,
        [Sent (mkRequest "GET" (user_url "org" "u1") None); Backoff (backoff_wait 1);
         Sent (mkRequest "GET" (user_url "org" "u1") None)]).
Proof.
  split; [reflexivity|].
  apply (user_lookup_error_ends_run (scripted [500; 403]%Z None) args_replace 1 row_en
           [row_plain] 0 (mkResponse 403 "" None) 2
           [Sent (mkRequest "GET" (user_url "org" "u1") None); Backoff (backoff_wait 1);
            Sent (mkRequest "GET" (user_url "org" "u1") None)]);
    first [reflexivity | discriminate | (simpl; lia)].
Defined.

(** ** Rows: merge mode keeps what it does not update *)

Lemma upsert_sign_lookup_other_lang signs lang email text md i s :
  signs !! i = Some s -> s_lang s <> Some lang ->
  upsert_sign signs lang email text md !! i = Some s.
Proof.
  intros Hs Hl.
  assert (clear_defaults md lang signs !! i = Some s) as Hcleared.
  { rewrite clear_defaults_lookup, Hs. simpl. destruct md; [|reflexivity].
    unfold clear_default.
    destruct (lang_is lang s) eqn:H; [apply lang_is_true in H; contradiction|].
    reflexivity. }
  destruct (find_target lang email signs 0) as [t|] eqn:Hfind.
  - rewrite (upsert_sign_hit _ _ _ _ _ _ Hfind).
    destruct (find_target_Some _ _ _ _ _ Hfind) as (k & st & Ht & Hst & Hk & _).
    simpl in Ht. subst k.
    rewrite list_lookup_alter_ne; [exact Hcleared|].
    intros ->. rewrite Hs in Hst. injection Hst as ->.
    apply same_key_true in Hk as [Hk _]. contradiction.
  - rewrite (upsert_sign_miss _ _ _ _ _ Hfind).
    apply lookup_app_l_Some. exact Hcleared.
Qed.

(** X18: in merge mode a record of the fetched settings whose language is
    not the language of the row is posted back unchanged, at the index it
    had, in every body the row posts (and the row posts at least once). *)
Theorem merge_mode_keeps_other_languages {Remote}
    (session : Remote -> Request -> Reply * Remote)
    args idx row email_to_bind current remote i s w w0 ev0 w1 ev1 :
  merge args = true -> dry_run args = false ->
  nonempty (strip (row_userId row)) = true ->
  nonempty (strip (row_signature row)) = true ->
  check_email session args (strip (row_userId row)) (strip (row_email row)) w
  = (Ok (Some email_to_bind), w0, ev0) ->
  get_sender_info session (org_id args) (strip (row_userId row)) w0
  = (Ok current, w1, ev1) ->
  si_signs current = Some remote -> remote !! i = Some s ->
  s_lang s <> Some (lang_of args row) ->
  posted (events_of (process_row session args idx row w)) <> []
  /\ Forall (fun body => signs body !! i = Some s)
            (posted (events_of (process_row session args idx row w))).
Proof.
  intros Hmerge Hdry Hu Ht Hcheck Hinfo Hremote Hs Hl.
  destruct (process_row_posted session args idx row email_to_bind
              (mkBody (upsert_sign (default [] (si_signs current)) (lang_of args row)
                         email_to_bind (text_of args row) true)
                      (or_str (si_signPosition current) (position args)))
              w w0 ev0 w1 ev1 Hu Ht Hcheck) as (n & Hn & ->).
  { rewrite (build_body_eq _ _ _ _ _ _ _ Hmerge), Hinfo. reflexivity. }
  rewrite Hdry in Hn. split; [destruct n; [lia | discriminate]|].
  apply Forall_replicate. simpl. rewrite Hremote. simpl.
  apply upsert_sign_lookup_other_lang; assumption.
Qed.

Lemma merge_mode_keeps_other_languages_witness :
  (get_sender_info
     (scripted [200; 200]%Z
        (Some (DocSenderInfo (mkSenderInfo (Some three_signs) None))))
     "org" "u2" 0
   = (Ok (mkSenderInfo (Some three_signs) None), 1,
      [Sent (mkRequest "GET" (sender_info_url "org" "u2") None)])
   /\ three_signs !! 1 = Some sign_en_B
   /\ s_lang sign_en_B <> Some (lang_of args_merge row_plain))
  /\ Forall (fun body => signs body !! 1 = Some sign_en_B)
       (posted (events_of
          (process_row
             (scripted [200; 200]%Z
                (Some (DocSenderInfo (mkSenderInfo (Some three_signs) None))))
             args_merge 1 row_plain 0))).
Proof.
  split; [repeat split; discriminate|].
  apply (merge_mode_keeps_other_languages
           (scripted [200; 200]%Z
              (Some (DocSenderInfo (mkSenderInfo (Some three_signs) None))))
           args_merge 1 row_plain None (mkSenderInfo (Some three_signs) None)
           three_signs 1 sign_en_B 0 0 [] 1
           [Sent (mkRequest "GET" (sender_info_url "org" "u2") None)]);
    first [reflexivity | discriminate].
Defined.

(** ** Ownership of an address, for a candidate that is not blank *)

Lemma lower_empty s : lower s = "" -> s = "".
Proof. destruct s; simpl; [reflexivity | discriminate]. Qed.

Lemma alias_address_value e a : alias_address e = Some a -> alias_value e = Some a.
Proof.
  destruct e as [s|[s|]|]; simpl; intros [= <-]; [reflexivity|].
  destruct s; reflexivity.
Qed.

Lemma alias_value_address e a :
  alias_value e = Some a -> lower (strip a) <> "" -> alias_address e = Some a.
Proof.
  destruct e as [s|[s|]|]; simpl; intros [= <-] H.
  - reflexivity.
  - destruct s; reflexivity.
  - exfalso. apply H. reflexivity.
Qed.

Lemma user_owns_email_not_blank user email :
  strip email <> "" ->
  (user_owns_email user email = true <->
   same_address (or_str (u_email user) "") email
   \/ exists e a, is_alias user e /\ alias_address e = Some a /\ same_address a email).
Proof.
  intros Hnb.
  assert (Hne : email <> "") by (intros ->; apply Hnb; reflexivity).
  assert (Hl : lower (strip email) <> "")
    by (intros H; apply Hnb, lower_empty, H).
  rewrite user_owns_email_true. unfold same_address. split.
  - intros [_ [[_ H] | (e & a & He & Hv & H)]]; [left; exact H|].
    right. exists e, a. split; [exact He|]. split; [|exact H].
    apply alias_value_address; [exact Hv | rewrite H; exact Hl].
  - intros [H | (e & a & He & Ha & H)]; (split; [exact Hne|]).
    + left. split; [rewrite H; exact Hl | exact H].
    + right. exists e, a. split; [exact He|]. split; [|exact H].
      apply alias_address_value, Ha.
Qed.

(** X20: for a candidate that is not blank (it has a character other than
    white space), [user_owns_email] answers true exactly when the
    candidate is, up to case and surrounding white space, the primary
    address of the card or the address of an alias of one of its three
    collections, given as a string or as a dict with an [address]; its
    answer is the same for every other spelling of the candidate up to
    case and surrounding white space; and it is false for the empty
    candidate, whatever the card. *)
Theorem user_owns_email_nonblank user email :
  (strip email <> "" ->
   (user_owns_email user email = true <->
    same_address (or_str (u_email user) "") email
    \/ exists e a, is_alias user e /\ alias_address e = Some a
                    /\ same_address a email)
   /\ (forall email', same_address email' email ->
         user_owns_email user email' = user_owns_email user email))
  /\ user_owns_email user "" = false.
Proof.
  split; [|reflexivity]. intros Hnb. split; [apply user_owns_email_not_blank, Hnb|].
  intros email' Hsame.
  assert (Hnb' : strip email' <> "").
  { intros H. apply Hnb. apply lower_empty. unfold same_address in Hsame.
    rewrite <- Hsame, H. reflexivity. }
  pose proof (user_owns_email_not_blank user email Hnb) as H.
  pose proof (user_owns_email_not_blank user email' Hnb') as H'.
  unfold same_address in *. rewrite Hsame in H'.
  destruct (user_owns_email user email'), (user_owns_email user email);
    try reflexivity.
  - symmetry. apply H, H'. reflexivity.
  - apply H', H. reflexivity.
Qed.

Lemma user_owns_email_nonblank_witness :
  user_owns_email user_ann "A.Smith@x.com" = true
  /\ user_owns_email user_ann "sales@X.com " = user_owns_email user_ann " SALES@x.com"
  /\ ~ (same_address (or_str (u_email user_blank_alias) "") "x@y.z"
        \/ exists e a, is_alias user_blank_alias e /\ alias_address e = Some a
                        /\ same_address a "x@y.z").
Proof.
  split; [|split].
  - apply (proj1 (proj1 (user_owns_email_nonblank user_ann "A.Smith@x.com")
                    ltac:(vm_compute; discriminate))).
    right. exists (AliasDict (Some "a.smith@X.com")), "a.smith@X.com".
    split; [|split; reflexivity].
    exists "alternateEmails", [AliasDict None; AliasDict (Some "a.smith@X.com")].
    repeat split; simpl; auto.
  - apply (proj2 (proj1 (user_owns_email_nonblank user_ann " SALES@x.com")
                    ltac:(vm_compute; discriminate))).
    reflexivity.
  - intros H.
    apply (proj1 (proj1 (user_owns_email_nonblank user_blank_alias "x@y.z")
                    ltac:(vm_compute; discriminate))) in H.
    vm_compute in H. discriminate.
Defined.

(** ** The checks at the start of the run *)



Example startup_ex :
  startup (Some "org") (Some "t") (Some [" signature"; "lang"; "email "; "userId"])
  = ChecksPassed
  /\ startup (Some "org") (Some "t") (Some ["userId"; "mail"; "text"])
     = ExitMissingColumns ["email"; "signature"]
  /\ startup (Some "") (Some "t") (Some ["userId"; "email"; "signature"]) = ExitNoOrgId
  /\ startup (Some "org") None None = ExitNoToken
  /\ startup (Some "org") (Some "t") (Some []) = ExitNoHeader.
Proof. repeat split. Qed.
